(** * openmanage-service-cli: the catalog service command tool

    A shallow embedding of [syssvc/openmanage-service-cli/main.go] and the
    properties of its handlers: request building, the wait-for-initialization
    loop of the MongoDB creation, the two-call deletion and the exit status.

    The program is a sequence of prints, calls to the management client and
    process exits.  A run is modelled by the list of events it emits, in
    order, together with the way it completes. *)

From Stdlib Require Import ZArith List String Ascii Bool Lia.
Import ListNotations.

Open Scope string_scope.
Open Scope Z_scope.
Open Scope list_scope.

(** ** Values of the imported packages *)

(** A non-nil Go [error], carried by its message. *)
Definition error := string.

Inductive result (A : Type) : Type :=
| Ok (a : A)
| Err (err : error).
Arguments Ok {A} a.
Arguments Err {A} err.

(** [manage.ServiceCommonRequest] *)
Module ServiceCommonRequest.
Record t := mk { Region : string; Cluster : string; ServiceName : string }.
End ServiceCommonRequest.

(** [common.Resources] *)
Module Resources.
Record t := mk
  { MaxCPUUnits : Z; ReserveCPUUnits : Z; MaxMemMB : Z; ReserveMemMB : Z }.
End Resources.

(** [manage.CatalogCreateMongoDBRequest] *)
Module CatalogCreateMongoDBRequest.
Record t := mk
  { Service : ServiceCommonRequest.t;
    Resource : Resources.t;
    Replicas : Z;
    VolumeSizeGB : Z;
    Admin : string;
    AdminPasswd : string }.
End CatalogCreateMongoDBRequest.

(** [manage.CatalogCreatePostgreSQLRequest] *)
Module CatalogCreatePostgreSQLRequest.
Record t := mk
  { Service : ServiceCommonRequest.t;
    Resource : Resources.t;
    Replicas : Z;
    VolumeSizeGB : Z;
    Admin : string;
    AdminPasswd : string;
    ReplUser : string;
    ReplUserPasswd : string }.
End CatalogCreatePostgreSQLRequest.

(** [manage.CatalogCheckServiceInitRequest] *)
Module CatalogCheckServiceInitRequest.
Record t := mk
  { ServiceType : string;
    Service : ServiceCommonRequest.t;
    Admin : string;
    AdminPasswd : string }.
End CatalogCheckServiceInitRequest.

(** [manage.ListServiceRequest] *)
Module ListServiceRequest.
Record t := mk { Region : string; Cluster : string; Prefix : string }.
End ListServiceRequest.

(** [manage.ListServiceMemberRequest] *)
Module ListServiceMemberRequest.
Record t := mk { Service : ServiceCommonRequest.t }.
End ListServiceMemberRequest.

(** [manage.GetConfigFileRequest] *)
Module GetConfigFileRequest.
Record t := mk
  { Region : string; Cluster : string; ServiceUUID : string; FileID : string }.
End GetConfigFileRequest.

(** [common.ServiceMember]: the volume of the member and its configs; the
    configs and the attributes of a service are only printed. *)
Definition MemberConfig := string.
Module ServiceMember.
Record t := mk { VolumeID : string; Configs : list MemberConfig }.
End ServiceMember.
Definition ServiceAttr := string.
Definition ConfigFile := string.

(** The arguments of [tls.Config] that the tool controls. *)
Module TLSConfig.
Record t := mk { ca : string; cert : string; key : string }.
End TLSConfig.

(** ** The management client

    [client.ManageClient] answers each request with a payload or an error.
    [CatalogCheckServiceInit] is the one call a run repeats, so its answer
    may depend on the number of calls answered before it. *)
Record ManageClient := mkManageClient
  { CatalogCreateMongoDBService : CatalogCreateMongoDBRequest.t -> option error;
    CatalogCreatePostgreSQLService :
      CatalogCreatePostgreSQLRequest.t -> option error;
    CatalogCheckServiceInit :
      nat -> CatalogCheckServiceInitRequest.t -> result bool;
    ListService : ListServiceRequest.t -> result (list ServiceAttr);
    GetServiceAttr : ServiceCommonRequest.t -> result ServiceAttr;
    ListServiceMember :
      ListServiceMemberRequest.t -> result (list ServiceMember.t);
    DeleteService : ServiceCommonRequest.t -> option error;
    GetConfigFile : GetConfigFileRequest.t -> result ConfigFile }.

(** What [main] uses besides the client: the region of the local instance,
    the loading of the TLS files and the forming of the server url. *)
Record World := mkWorld
  { GetLocalEc2Region : result string;
    GenClientTLSConfig : string -> string -> string -> result TLSConfig.t;
    GetDefaultManageServiceURL : string -> bool -> string;
    FormatManageServiceURL : string -> bool -> string;
    NewManageClient : string -> option TLSConfig.t -> ManageClient }.

(** ** Events of a run *)

(** An operand of [fmt.Println] or [fmt.Printf]. *)
Inductive Value :=
| VStr (s : string)
| VInt (z : Z)
| VErr (err : error)
| VStrs (l : list string)
| VPtr (flagName : string)
| VAttr (a : ServiceAttr)
| VMember (m : ServiceMember.t)
| VConfig (c : MemberConfig)
| VFile (c : ConfigFile).

(** A request sent to the management service. *)
Inductive Call :=
| CallCreateMongoDB (req : CatalogCreateMongoDBRequest.t)
| CallCreatePostgreSQL (req : CatalogCreatePostgreSQLRequest.t)
| CallCheckServiceInit (req : CatalogCheckServiceInitRequest.t)
| CallListService (req : ListServiceRequest.t)
| CallGetServiceAttr (req : ServiceCommonRequest.t)
| CallListServiceMember (req : ListServiceMemberRequest.t)
| CallDeleteService (req : ServiceCommonRequest.t)
| CallGetConfigFile (req : GetConfigFileRequest.t).

Inductive Event :=
| Println (args : list Value)
| Printf (format : string) (args : list Value)
| Sleep (seconds : Z)
| Request (c : Call)
| LocalRegion
| LoadTLS (caFile certFile keyFile : string).

(** ** Programs

    A program emits events and then returns a value, exits the process with
    a code, or is cut off by the bound put on its loop. *)
Inductive Completion (A : Type) : Type :=
| Return (a : A)
| Exit (code : Z)
| OutOfFuel.
Arguments Return {A} a.
Arguments Exit {A} code.
Arguments OutOfFuel {A}.

Definition Prog (A : Type) : Type := list Event * Completion A.

Definition ret {A} (a : A) : Prog A := ([], Return a).

Definition bind {A B} (m : Prog A) (k : A -> Prog B) : Prog B :=
  match m with
  | (t, Return a) => let (t', c) := k a in (t ++ t', c)
  | (t, Exit code) => (t, Exit code)
  | (t, OutOfFuel) => (t, OutOfFuel)
  end.

Notation "x <- m ;; k" := (bind m (fun x => k))
  (at level 61, m at next level, right associativity).
Notation "m ;; k" := (bind m (fun _ => k))
  (at level 61, right associativity).

Arguments bind : simpl never.

Definition emit (e : Event) : Prog unit := ([e], Return tt).
Definition os_Exit {A} (code : Z) : Prog A := ([], Exit code).
Definition when (b : bool) (m : Prog unit) : Prog unit :=
  if b then m else ret tt.

Definition events {A} (m : Prog A) : list Event := fst m.
Definition completion {A} (m : Prog A) : Completion A := snd m.

(** The status the parent process sees: 0 after a return from [main], the
    low eight bits of the code after [os.Exit]. *)
Definition exitStatus {A} (c : Completion A) : option Z :=
  match c with
  | Return _ => Some 0
  | Exit code => Some (code mod 256)
  | OutOfFuel => None
  end.

(** A request to the client: the event, then the client's answer. *)
Definition call {A} (c : Call) (answer : A) : Prog A := ([Request c], Return answer).

(** A call that does not go to the management service. *)
Definition local {A} (e : Event) (answer : A) : Prog A := ([e], Return answer).

Fixpoint forEach {A} (l : list A) (body : A -> Prog unit) : Prog unit :=
  match l with
  | [] => ret tt
  | x :: l' => body x ;; forEach l' body
  end.

(** ** The flags *)

Record Flags := mkFlags
  { op : string;
    serviceType : string;
    cluster : string;
    serverURL : string;
    region : string;
    service : string;
    replicas : Z;
    volSizeGB : Z;
    cpuUnits : Z;
    reserveMemMB : Z;
    admin : string;
    adminPasswd : string;
    tlsEnabled : bool;
    caFile : string;
    certFile : string;
    keyFile : string;
    replUser : string;
    replUserPasswd : string;
    serviceUUID : string;
    fileID : string }.

(** The three assignments [main] makes to the flag variables. *)
Definition setRegion (v : string) (f : Flags) : Flags :=
  mkFlags (op f) (serviceType f) (cluster f) (serverURL f) v (service f)
    (replicas f) (volSizeGB f) (cpuUnits f) (reserveMemMB f) (admin f)
    (adminPasswd f) (tlsEnabled f) (caFile f) (certFile f) (keyFile f)
    (replUser f) (replUserPasswd f) (serviceUUID f) (fileID f).

Definition setServerURL (v : string) (f : Flags) : Flags :=
  mkFlags (op f) (serviceType f) (cluster f) v (region f) (service f)
    (replicas f) (volSizeGB f) (cpuUnits f) (reserveMemMB f) (admin f)
    (adminPasswd f) (tlsEnabled f) (caFile f) (certFile f) (keyFile f)
    (replUser f) (replUserPasswd f) (serviceUUID f) (fileID f).

Definition setServiceType (v : string) (f : Flags) : Flags :=
  mkFlags (op f) v (cluster f) (serverURL f) (region f) (service f)
    (replicas f) (volSizeGB f) (cpuUnits f) (reserveMemMB f) (admin f)
    (adminPasswd f) (tlsEnabled f) (caFile f) (certFile f) (keyFile f)
    (replUser f) (replUserPasswd f) (serviceUUID f) (fileID f).

(** ** Constants of [main.go] *)

Definition defaultPGAdmin := "postgres".

Definition opCreate := "create-service".
Definition opCheckInit := "check-service-init".
Definition opDelete := "delete-service".
Definition opList := "list-services".
Definition opGet := "get-service".
Definition opListMembers := "list-members".
Definition opGetConfig := "get-config".

(** ** Helpers *)

(** [int64] arithmetic wraps around. *)
Definition wrap64 (z : Z) : Z := (z + 2 ^ 63) mod 2 ^ 64 - 2 ^ 63.

(** [strings.ToLower], on the ASCII letters. *)
Definition lowerAscii (c : ascii) : ascii :=
  let n := nat_of_ascii c in
  if (Nat.leb 65 n && Nat.leb n 90)%bool then ascii_of_nat (n + 32) else c.

Fixpoint ToLower (s : string) : string :=
  match s with
  | EmptyString => EmptyString
  | String c s' => String (lowerAscii c) (ToLower s')
  end.

(** [volIDs[i] = v] for an index inside the slice. *)
Fixpoint assignAt (i : nat) (v : string) (volIDs : list string) : list string :=
  match volIDs, i with
  | [], _ => []
  | _ :: rest, O => v :: rest
  | x :: rest, S i' => x :: assignAt i' v rest
  end.

(** [for i, member := range members { volIDs[i] = member.VolumeID }] *)
Fixpoint rangeVolumeIDs (i : nat) (members : list ServiceMember.t)
    (volIDs : list string) : list string :=
  match members with
  | [] => volIDs
  | member :: rest =>
      rangeVolumeIDs (S i) rest (assignAt i (ServiceMember.VolumeID member) volIDs)
  end.

Definition collectVolumeIDs (members : list ServiceMember.t) : list string :=
  rangeVolumeIDs 0 members (repeat "" (List.length members)).

Definition commonRequest (f : Flags) : ServiceCommonRequest.t :=
  ServiceCommonRequest.mk (region f) (cluster f) (service f).

(** ** The handlers

    The constants of the packages [common] and [catalog] are declared
    outside [main.go]; the handlers are stated over any values of them. *)
Section Handlers.

Variable DefaultServiceWaitSeconds : Z.
Variable DefaultRetryWaitSeconds : Z.
Variable CatalogService_MongoDB : string.
Variable CatalogService_PostgreSQL : string.

Definition mongoDBRequest (f : Flags) : CatalogCreateMongoDBRequest.t :=
  CatalogCreateMongoDBRequest.mk
    (commonRequest f)
    (Resources.mk (cpuUnits f) (cpuUnits f) (reserveMemMB f) (reserveMemMB f))
    (replicas f) (volSizeGB f) (admin f) (adminPasswd f).

Definition postgreSQLRequest (f : Flags) : CatalogCreatePostgreSQLRequest.t :=
  CatalogCreatePostgreSQLRequest.mk
    (commonRequest f)
    (Resources.mk (cpuUnits f) (cpuUnits f) (reserveMemMB f) (reserveMemMB f))
    (replicas f) (volSizeGB f) defaultPGAdmin (adminPasswd f)
    (replUser f) (replUserPasswd f).

(** The request of the initialization check that follows the creation. *)
Definition mongoDBInitRequest (f : Flags) : CatalogCheckServiceInitRequest.t :=
  CatalogCheckServiceInitRequest.mk CatalogService_MongoDB
    (CatalogCreateMongoDBRequest.Service (mongoDBRequest f))
    (admin f) (adminPasswd f).

(** The loop of [createMongoDBService], from the value [sec] of its
    counter and at the [tick]-th call of the check.  It yields [true] when
    the body returns from the function and [false] when the loop ends. *)
Fixpoint waitInitialized (fuel : nat) (cli : ManageClient)
    (initReq : CatalogCheckServiceInitRequest.t) (tick : nat) (sec : Z)
    : Prog bool :=
  if sec <? DefaultServiceWaitSeconds then
    match fuel with
    | O => ([], OutOfFuel)
    | S fuel' =>
        r <- call (CallCheckServiceInit initReq)
               (CatalogCheckServiceInit cli tick initReq) ;;
        let next :=
          emit (Sleep 10) ;;
          waitInitialized fuel' cli initReq (S tick)
            (wrap64 (sec + DefaultRetryWaitSeconds)) in
        match r with
        | Err err =>
            emit (Println [VStr "check service init error"; VErr err]) ;;
            next
        | Ok true =>
            emit (Println [VStr "The catalog service is initialized"]) ;;
            ret true
        | Ok false => next
        end
    end
  else ret false.

Definition createMongoDBService (fuel : nat) (cli : ManageClient) (f : Flags)
    : Prog unit :=
  when ((replicas f =? 0) || (volSizeGB f =? 0))
    (emit (Println [VStr "please specify the valid replica number and volume size"]) ;;
     os_Exit (-1)) ;;
  let req := mongoDBRequest f in
  err <- call (CallCreateMongoDB req) (CatalogCreateMongoDBService cli req) ;;
  match err with
  | Some err =>
      emit (Println [VStr "create catalog mongodb service error"; VErr err]) ;;
      os_Exit (-1)
  | None => ret tt
  end ;;
  emit (Println [VStr "The catalog service is created, wait till it gets initialized"]) ;;
  let initReq := mongoDBInitRequest f in
  returned <- waitInitialized fuel cli initReq 0 0 ;;
  if returned : bool then ret tt
  else
    emit (Println [VStr "The catalog service is not initialized after";
                   VInt DefaultServiceWaitSeconds]) ;;
    os_Exit (-1).

Definition createPostgreSQLService (cli : ManageClient) (f : Flags)
    : Prog unit :=
  when ((replicas f =? 0) || (volSizeGB f =? 0))
    (emit (Println [VStr "please specify the valid replica number and volume size"]) ;;
     os_Exit (-1)) ;;
  let req := postgreSQLRequest f in
  err <- call (CallCreatePostgreSQL req) (CatalogCreatePostgreSQLService cli req) ;;
  match err with
  | Some err =>
      emit (Println [VStr "create postgresql service error"; VErr err]) ;;
      os_Exit (-1)
  | None => emit (Println [VStr "The postgresql service is created"])
  end.

Definition checkServiceInit (cli : ManageClient) (f : Flags) : Prog unit :=
  let req :=
    CatalogCheckServiceInitRequest.mk (serviceType f) (commonRequest f)
      (admin f) (adminPasswd f) in
  r <- call (CallCheckServiceInit req) (CatalogCheckServiceInit cli 0 req) ;;
  match r with
  | Err err => emit (Println [VStr "check service init error"; VErr err])
  | Ok true => emit (Println [VStr "service initialized"])
  | Ok false => emit (Println [VStr "service is initializing"])
  end.

Definition listServices (cli : ManageClient) (f : Flags) : Prog unit :=
  let req := ListServiceRequest.mk (region f) (cluster f) "" in
  r <- call (CallListService req) (ListService cli req) ;;
  match r with
  | Err err => emit (Println [VStr "ListService error"; VErr err]) ;; os_Exit (-1)
  | Ok services =>
      emit (Printf "List %d services:\n" [VInt (Z.of_nat (List.length services))]) ;;
      forEach services (fun svc => emit (Printf "\t%+v\n" [VAttr svc]))
  end.

Definition getService (cli : ManageClient) (f : Flags) : Prog unit :=
  let req := commonRequest f in
  r <- call (CallGetServiceAttr req) (GetServiceAttr cli req) ;;
  match r with
  | Err err => emit (Println [VStr "GetServiceAttr error"; VErr err]) ;; os_Exit (-1)
  | Ok attr => emit (Printf "%+v\n" [VAttr attr])
  end.

Definition listServiceMembers (cli : ManageClient) (f : Flags)
    : Prog (list ServiceMember.t) :=
  let serviceReq := commonRequest f in
  let listReq := ListServiceMemberRequest.mk serviceReq in
  r <- call (CallListServiceMember listReq) (ListServiceMember cli listReq) ;;
  match r with
  | Err err => emit (Println [VStr "ListServiceMember error"; VErr err]) ;; os_Exit (-1)
  | Ok members => ret members
  end.

Definition deleteService (cli : ManageClient) (f : Flags) : Prog unit :=
  members <- listServiceMembers cli f ;;
  let volIDs := collectVolumeIDs members in
  let serviceReq := commonRequest f in
  err <- call (CallDeleteService serviceReq) (DeleteService cli serviceReq) ;;
  match err with
  | Some err => emit (Println [VStr "DeleteService error"; VErr err]) ;; os_Exit (-1)
  | None =>
      emit (Println [VStr "Service deleted, please manually delete the EBS volumes\n\t";
                     VStrs volIDs])
  end.

Definition getConfig (cli : ManageClient) (f : Flags) : Prog unit :=
  when ((serviceUUID f =? "")%string || (fileID f =? "")%string)
    (emit (Println [VStr "Please specify the service uuid and config file id"]) ;;
     os_Exit (-1)) ;;
  let req :=
    GetConfigFileRequest.mk (region f) (cluster f) (serviceUUID f) (fileID f) in
  r <- call (CallGetConfigFile req) (GetConfigFile cli req) ;;
  match r with
  | Err err => emit (Println [VStr "GetConfigFile error"; VErr err]) ;; os_Exit (-1)
  | Ok cfg => emit (Println [VStr "%+v\n"; VFile cfg])
  end.

(** [main], after [flag.Parse] has filled the flags [f]. *)
Definition main (fuel : nat) (w : World) (f : Flags) : Prog unit :=
  when (negb (op f =? opList)%string && (service f =? "")%string)
    (emit (Println [VStr "please specify the valid service name"]) ;;
     os_Exit (-1)) ;;
  when (tlsEnabled f &&
        ((caFile f =? "")%string || (certFile f =? "")%string
         || (keyFile f =? "")%string))
    (emit (Printf "tls enabled without ca file %s cert file %s or key file %s\n"
             [VPtr "caFile"; VPtr "certFile"; VPtr "keyFile"]) ;;
     os_Exit (-1)) ;;
  f <- (if (region f =? "")%string then
          r <- local LocalRegion (GetLocalEc2Region w) ;;
          match r with
          | Err _ => emit (Println [VStr "please specify the region"]) ;; os_Exit (-1)
          | Ok v => ret (setRegion v f)
          end
        else ret f) ;;
  tlsConf <- (if tlsEnabled f then
                r <- local (LoadTLS (caFile f) (certFile f) (keyFile f))
                       (GenClientTLSConfig w (caFile f) (certFile f) (keyFile f)) ;;
                match r with
                | Err err =>
                    emit (Printf "GenClientTLSConfig error %s, ca file %s, cert file %s, key file %s\n"
                            [VErr err; VStr (caFile f); VStr (certFile f);
                             VStr (keyFile f)]) ;;
                    os_Exit (-1)
                | Ok conf => ret (Some conf)
                end
              else ret None) ;;
  let f :=
    setServerURL
      (if (serverURL f =? "")%string
       then GetDefaultManageServiceURL w (cluster f) (tlsEnabled f)
       else FormatManageServiceURL w (serverURL f) (tlsEnabled f)) f in
  let cli := NewManageClient w (serverURL f) tlsConf in
  let f := setServiceType (ToLower (serviceType f)) f in
  if (op f =? opCreate)%string then
    if (serviceType f =? CatalogService_MongoDB)%string then
      createMongoDBService fuel cli f
    else if (serviceType f =? CatalogService_PostgreSQL)%string then
      createPostgreSQLService cli f
    else
      emit (Printf "Invalid service type, please specify %s|%s\n"
              [VStr CatalogService_MongoDB; VStr CatalogService_PostgreSQL]) ;;
      os_Exit (-1)
  else if (op f =? opCheckInit)%string then checkServiceInit cli f
  else if (op f =? opDelete)%string then deleteService cli f
  else if (op f =? opList)%string then listServices cli f
  else if (op f =? opGet)%string then getService cli f
  else if (op f =? opListMembers)%string then
    members <- listServiceMembers cli f ;;
    emit (Printf "List %d members:\n" [VInt (Z.of_nat (List.length members))]) ;;
    forEach members (fun member =>
      emit (Printf "\t%+v\n" [VMember member]) ;;
      forEach (ServiceMember.Configs member) (fun cfg =>
        emit (Printf "\t\t%+v\n" [VConfig cfg])))
  else if (op f =? opGetConfig)%string then getConfig cli f
  else
    emit (Printf "Invalid operation, please specify %s|%s|%s|%s|%s|%s\n"
            [VStr opCreate; VStr opCheckInit; VStr opDelete; VStr opList;
             VStr opGet; VStr opListMembers]) ;;
    os_Exit (-1).

End Handlers.

(** ** Observations on a run *)

Definition isRequest (e : Event) : bool :=
  match e with Request _ => true | _ => false end.

Definition isCheckInit (e : Event) : bool :=
  match e with Request (CallCheckServiceInit _) => true | _ => false end.

(** The number of calls of the initialization check in a trace. *)
Definition ticks (t : list Event) : nat := List.length (filter isCheckInit t).

Definition occursIn (v s : string) : bool :=
  match index 0 v s with Some _ => true | None => false end.

(** The operand [val] of a print shows the volume id [v]. *)
Definition mentions (v : string) (val : Value) : bool :=
  match val with
  | VStr s => occursIn v s
  | VErr err => occursIn v err
  | VStrs l => existsb (String.eqb v) l
  | VMember m => String.eqb v (ServiceMember.VolumeID m)
  | _ => false
  end.

(** Some print of the trace shows the volume id [v]. *)
Definition reported (v : string) (t : list Event) : bool :=
  existsb (fun e =>
             match e with
             | Println args => existsb (mentions v) args
             | Printf _ args => existsb (mentions v) args
             | _ => false
             end) t.

(** The run ends with a nonzero status and has sent no request. *)
Definition rejectedBeforeAnyCall {A} (p : Prog A) : Prop :=
  (exists s, exitStatus (completion p) = Some s /\ s <> 0) /\
  Forall (fun e => isRequest e = false) (events p).

(** The events of the wait loop for the request [initReq]. *)
Definition pollEvent (initReq : CatalogCheckServiceInitRequest.t) (e : Event)
    : Prop :=
  match e with
  | Request (CallCheckServiceInit req) => req = initReq
  | Sleep seconds => seconds = 10
  | Println _ => True
  | _ => False
  end.

(** The prints of the rejections. *)
Definition invalidNumbers : Event :=
  Println [VStr "please specify the valid replica number and volume size"].

Definition tlsMessage : Event :=
  Printf "tls enabled without ca file %s cert file %s or key file %s\n"
    [VPtr "caFile"; VPtr "certFile"; VPtr "keyFile"].

(** The number of the three TLS paths that are set. *)
Definition tlsPathsSet (f : Flags) : nat :=
  List.length (filter (fun s => negb (s =? "")%string)
                 [caFile f; certFile f; keyFile f]).

(** A client that turns each error of the initialization check into the
    answer "not initialized" and is [cli] otherwise. *)
Definition withoutCheckErrors (cli : ManageClient) : ManageClient :=
  mkManageClient
    (CatalogCreateMongoDBService cli) (CatalogCreatePostgreSQLService cli)
    (fun tick req =>
       match CatalogCheckServiceInit cli tick req with
       | Err _ => Ok false
       | r => r
       end)
    (ListService cli) (GetServiceAttr cli) (ListServiceMember cli)
    (DeleteService cli) (GetConfigFile cli).

(** ** Stubs, for the runs on concrete inputs *)

Definition stubClient (createErr : option error) (check : nat -> result bool)
    (members : result (list ServiceMember.t)) (deleteErr : option error)
    : ManageClient :=
  mkManageClient (fun _ => createErr) (fun _ => createErr) (fun tick _ => check tick)
    (fun _ => Ok []) (fun _ => Ok "attributes") (fun _ => members)
    (fun _ => deleteErr) (fun _ => Ok "content").

Definition stubWorld (cli : ManageClient) : World :=
  mkWorld (Ok "us-west-1") (fun ca cert key => Ok (TLSConfig.mk ca cert key))
    (fun cluster _ => cluster) (fun url _ => url) (fun _ _ => cli).

(** The flags at their defaults, for the operation, service type, replica
    number and volume size given. *)
Definition flagsFor (op serviceType : string) (replicas volSizeGB : Z) : Flags :=
  mkFlags op serviceType "default" "" "us-west-1" "svcA" replicas volSizeGB
    256 256 "dbadmin" "changeme" false "" "" "" "repluser" "replpassword" "" "".

Definition withTLS (enabled : bool) (ca cert key : string) (f : Flags) : Flags :=
  mkFlags (op f) (serviceType f) (cluster f) (serverURL f) (region f) (service f)
    (replicas f) (volSizeGB f) (cpuUnits f) (reserveMemMB f) (admin f)
    (adminPasswd f) enabled ca cert key
    (replUser f) (replUserPasswd f) (serviceUUID f) (fileID f).

Definition twoMembers : list ServiceMember.t :=
  [ServiceMember.mk "vol-1" []; ServiceMember.mk "vol-2" []].

(** The check answers "not initialized" for the first [k] ticks and
    "initialized" from then on. *)
Definition readyAfter (k : nat) (tick : nat) : result bool :=
  Ok (Nat.leb k tick).

(** The check fails at the second and fourth tick and answers "initialized"
    at the sixth. *)
Definition flakyCheck (tick : nat) : result bool :=
  match tick with
  | 1%nat | 3%nat => Err "connection refused"
  | 5%nat => Ok true
  | _ => Ok false
  end.

(** The events that the statements name. *)
Definition initializedMessage : Event :=
  Println [VStr "The catalog service is initialized"].

Definition timeoutMessage (Wait : Z) : Event :=
  Println [VStr "The catalog service is not initialized after"; VInt Wait].

Definition createdMessage : Event :=
  Println [VStr "The catalog service is created, wait till it gets initialized"].

Definition listCall (f : Flags) : Event :=
  Request (CallListServiceMember (ListServiceMemberRequest.mk (commonRequest f))).

Definition deleteCall (f : Flags) : Event :=
  Request (CallDeleteService (commonRequest f)).

Definition deletedMessage (volIDs : list string) : Event :=
  Println [VStr "Service deleted, please manually delete the EBS volumes\n\t";
           VStrs volIDs].

(** An event other than the print of the TLS rejection. *)
Definition notTLSMessage (e : Event) : Prop := e <> tlsMessage.

Definition serviceNameMessage : Event :=
  Println [VStr "please specify the valid service name"].

(** ** Further observations, for the rest of [main.go] *)

(** The operations that [main] dispatches. *)
Definition knownOperation (o : string) : bool :=
  ((o =? opCreate)%string || (o =? opCheckInit)%string || (o =? opDelete)%string
   || (o =? opList)%string || (o =? opGet)%string || (o =? opListMembers)%string
   || (o =? opGetConfig)%string)%bool.

(** The number of requests sent to the management service. *)
Definition requestCount (t : list Event) : nat := List.length (filter isRequest t).

(** The seconds the run has slept. *)
Fixpoint sleptSeconds (t : list Event) : Z :=
  match t with
  | [] => 0
  | Sleep seconds :: t' => seconds + sleptSeconds t'
  | _ :: t' => sleptSeconds t'
  end.

(** The url [main] gives to [client.NewManageClient]. *)
Definition resolvedURL (w : World) (f : Flags) : string :=
  if (serverURL f =? "")%string
  then GetDefaultManageServiceURL w (cluster f) (tlsEnabled f)
  else FormatManageServiceURL w (serverURL f) (tlsEnabled f).

Definition regionMessage : Event := Println [VStr "please specify the region"].

Definition invalidOperationMessage : Event :=
  Printf "Invalid operation, please specify %s|%s|%s|%s|%s|%s\n"
    [VStr opCreate; VStr opCheckInit; VStr opDelete; VStr opList;
     VStr opGet; VStr opListMembers].

Definition invalidServiceTypeMessage (MongoDB PostgreSQL : string) : Event :=
  Printf "Invalid service type, please specify %s|%s\n"
    [VStr MongoDB; VStr PostgreSQL].

Definition configMessage : Event :=
  Println [VStr "Please specify the service uuid and config file id"].

(** The run ends, by a return or by [os.Exit(-1)]. *)
Definition endsUniformly {A} (c : Completion A) : Prop :=
  match c with
  | Return _ => True
  | Exit code => code = -1
  | OutOfFuel => False
  end.

(** The event [e], then the run [p]. *)
Definition after {A} (e : Event) (p : Prog A) : Prog A :=
  (e :: events p, completion p).

(** The [switch *op] of [main], for the client [cli] and the flags as they
    are when the switch is reached. *)
Definition dispatch (Wait Retry : Z) (MongoDB PostgreSQL : string) (fuel : nat)
    (cli : ManageClient) (f : Flags) : Prog unit :=
  if (op f =? opCreate)%string then
    if (serviceType f =? MongoDB)%string then
      createMongoDBService Wait Retry MongoDB fuel cli f
    else if (serviceType f =? PostgreSQL)%string then
      createPostgreSQLService cli f
    else
      emit (invalidServiceTypeMessage MongoDB PostgreSQL) ;; os_Exit (-1)
  else if (op f =? opCheckInit)%string then checkServiceInit cli f
  else if (op f =? opDelete)%string then deleteService cli f
  else if (op f =? opList)%string then listServices cli f
  else if (op f =? opGet)%string then getService cli f
  else if (op f =? opListMembers)%string then
    members <- listServiceMembers cli f ;;
    emit (Printf "List %d members:\n" [VInt (Z.of_nat (List.length members))]) ;;
    forEach members (fun member =>
      emit (Printf "\t%+v\n" [VMember member]) ;;
      forEach (ServiceMember.Configs member) (fun cfg =>
        emit (Printf "\t\t%+v\n" [VConfig cfg])))
  else if (op f =? opGetConfig)%string then getConfig cli f
  else emit invalidOperationMessage ;; os_Exit (-1).

(** The flags as the switch sees them: the server url resolved and the
    service type in lower case. *)
Definition prepared (w : World) (f : Flags) : Flags :=
  setServiceType (ToLower (serviceType f)) (setServerURL (resolvedURL w f) f).

(** [main] from the loading of the TLS files on, the region being known. *)
Definition connectAndDispatch (Wait Retry : Z) (MongoDB PostgreSQL : string)
    (fuel : nat) (w : World) (f : Flags) : Prog unit :=
  if tlsEnabled f then
    match GenClientTLSConfig w (caFile f) (certFile f) (keyFile f) with
    | Err err =>
        ([LoadTLS (caFile f) (certFile f) (keyFile f);
          Printf "GenClientTLSConfig error %s, ca file %s, cert file %s, key file %s\n"
            [VErr err; VStr (caFile f); VStr (certFile f); VStr (keyFile f)]],
         Exit (-1))
    | Ok conf =>
        after (LoadTLS (caFile f) (certFile f) (keyFile f))
          (dispatch Wait Retry MongoDB PostgreSQL fuel
             (NewManageClient w (resolvedURL w f) (Some conf)) (prepared w f))
    end
  else
    dispatch Wait Retry MongoDB PostgreSQL fuel
      (NewManageClient w (resolvedURL w f) None) (prepared w f).

(** The lines that list the services. *)
Definition servicesReport (services : list ServiceAttr) : list Event :=
  Printf "List %d services:\n" [VInt (Z.of_nat (List.length services))]
  :: map (fun svc => Printf "\t%+v\n" [VAttr svc]) services.

(** The lines that list the members: each member, then its configs. *)
Definition memberReport (member : ServiceMember.t) : list Event :=
  Printf "\t%+v\n" [VMember member]
  :: map (fun cfg => Printf "\t\t%+v\n" [VConfig cfg]) (ServiceMember.Configs member).

Definition membersReport (members : list ServiceMember.t) : list Event :=
  Printf "List %d members:\n" [VInt (Z.of_nat (List.length members))]
  :: flat_map memberReport members.

Definition withServiceUUID (uuid file : string) (f : Flags) : Flags :=
  mkFlags (op f) (serviceType f) (cluster f) (serverURL f) (region f) (service f)
    (replicas f) (volSizeGB f) (cpuUnits f) (reserveMemMB f) (admin f)
    (adminPasswd f) (tlsEnabled f) (caFile f) (certFile f) (keyFile f)
    (replUser f) (replUserPasswd f) uuid file.

Definition withService (name : string) (f : Flags) : Flags :=
  mkFlags (op f) (serviceType f) (cluster f) (serverURL f) (region f) name
    (replicas f) (volSizeGB f) (cpuUnits f) (reserveMemMB f) (admin f)
    (adminPasswd f) (tlsEnabled f) (caFile f) (certFile f) (keyFile f)
    (replUser f) (replUserPasswd f) (serviceUUID f) (fileID f).

(** A world whose region lookup and TLS loading answer as given. *)
Definition stubWorldWith (localRegion : result string)
    (tlsConfig : result TLSConfig.t) (cli : ManageClient) : World :=
  mkWorld localRegion (fun _ _ _ => tlsConfig)
    (fun cluster _ => cluster) (fun url _ => url) (fun _ _ => cli).

(** The cost that the operations without a loop keep to: at most two
    requests, one when the operation is not delete-service, and no sleep. *)
Definition singleCallCost (f : Flags) (t : list Event) : Prop :=
  (requestCount t <= 2)%nat /\
  (op f <> opDelete -> requestCount t <= 1)%nat /\
  sleptSeconds t = 0.

(** An event of a handler: not the region lookup, not the TLS loading. *)
Definition handlerEvent (e : Event) : Prop :=
  match e with
  | LocalRegion => False
  | LoadTLS _ _ _ => False
  | _ => True
  end.

(** ** Laws of the programs *)

Lemma bind_Return {A B} (t : list Event) (a : A) (k : A -> Prog B) :
  bind (t, Return a) k = (t ++ events (k a), completion (k a)).
Proof. unfold bind, events, completion. destruct (k a); reflexivity. Qed.

Lemma bind_Exit {A B} (t : list Event) (code : Z) (k : A -> Prog B) :
  bind (t, Exit code) k = (t, Exit code).
Proof. reflexivity. Qed.

Lemma events_bind_Return {A B} (t : list Event) (a : A) (k : A -> Prog B) :
  events (bind (t, Return a) k) = t ++ events (k a).
Proof. rewrite bind_Return. reflexivity. Qed.

Ltac run :=
  unfold when, emit, call, local, ret, os_Exit;
  repeat (rewrite ?bind_Return, ?bind_Exit; cbn [events completion fst snd app]).

(** ** Runs on concrete inputs *)

Example ToLower_service_type : ToLower "PostgreSQL" = "postgresql".
Proof. reflexivity. Qed.

Example wrap64_max : wrap64 (2 ^ 63 - 1 + 1) = - 2 ^ 63.
Proof. reflexivity. Qed.

Example collectVolumeIDs_two : collectVolumeIDs twoMembers = ["vol-1"; "vol-2"].
Proof. reflexivity. Qed.

(** The scenario of the spec: a MongoDB creation with three replicas and
    volumes of 20 GB; the service type is matched in lower case, the request
    carries the numbers and the admin of the caller, and the run returns at
    the first check that answers "initialized". *)
Example main_create_mongodb :
  let cli := stubClient None (readyAfter 1) (Ok []) None in
  let f := flagsFor opCreate "MongoDB" 3 20 in
  main 120 3 "mongodb" "postgresql" 40 (stubWorld cli) f =
    ([Request (CallCreateMongoDB
                 (CatalogCreateMongoDBRequest.mk
                    (ServiceCommonRequest.mk "us-west-1" "default" "svcA")
                    (Resources.mk 256 256 256 256) 3 20 "dbadmin" "changeme"));
      createdMessage;
      Request (CallCheckServiceInit (mongoDBInitRequest "mongodb" f));
      Sleep 10;
      Request (CallCheckServiceInit (mongoDBInitRequest "mongodb" f));
      initializedMessage],
     Return tt).
Proof. reflexivity. Qed.

(** With a budget of 120 and a step of 3 a check that never answers
    "initialized" is called forty times before the timeout. *)
Example main_create_mongodb_timeout :
  let cli := stubClient None (fun _ => Ok false) (Ok []) None in
  let p := main 120 3 "mongodb" "postgresql" 40 (stubWorld cli)
             (flagsFor opCreate "mongodb" 3 20) in
  ticks (events p) = 40%nat /\ completion p = Exit (-1) /\
  last (events p) (Sleep 0) = timeoutMessage 120.
Proof. repeat split; reflexivity. Qed.

(** An operation outside the enumerated ones exits with -1. *)
Example main_invalid_operation :
  let cli := stubClient None (readyAfter 0) (Ok []) None in
  completion (main 120 3 "mongodb" "postgresql" 40 (stubWorld cli)
                (flagsFor "drop-service" "" 3 0)) = Exit (-1).
Proof. reflexivity. Qed.

(** ** The wait loop *)

Lemma wrap64_small (z : Z) : - 2 ^ 63 <= z < 2 ^ 63 -> wrap64 z = z.
Proof.
  intros H. unfold wrap64. rewrite Z.mod_small; lia.
Qed.

Lemma ticks_app (t t' : list Event) : ticks (t ++ t') = (ticks t + ticks t')%nat.
Proof. unfold ticks. rewrite filter_app, length_app. reflexivity. Qed.

Section Poller.

Variables Wait Retry : Z.
Variable cli : ManageClient.
Variable initReq : CatalogCheckServiceInitRequest.t.

Local Abbreviation wait := (waitInitialized Wait Retry).
Local Abbreviation check tick := (CatalogCheckServiceInit cli tick initReq).

Lemma wait_unfold fuel tick sec :
  wait (S fuel) cli initReq tick sec =
    if sec <? Wait then
      r <- call (CallCheckServiceInit initReq) (check tick) ;;
      let next :=
        emit (Sleep 10) ;;
        wait fuel cli initReq (S tick) (wrap64 (sec + Retry)) in
      match r with
      | Err err =>
          emit (Println [VStr "check service init error"; VErr err]) ;; next
      | Ok true =>
          emit (Println [VStr "The catalog service is initialized"]) ;; ret true
      | Ok false => next
      end
    else ret false.
Proof. reflexivity. Qed.

Lemma wait_stop fuel tick sec :
  Wait <= sec -> wait fuel cli initReq tick sec = ([], Return false).
Proof.
  intros H. apply Z.ltb_ge in H. destruct fuel; simpl; rewrite H; reflexivity.
Qed.

Lemma wait_done fuel tick sec :
  sec < Wait -> check tick = Ok true ->
  wait (S fuel) cli initReq tick sec =
    ([Request (CallCheckServiceInit initReq);
      Println [VStr "The catalog service is initialized"]], Return true).
Proof.
  intros H E. apply Z.ltb_lt in H. rewrite wait_unfold, H. run. rewrite E. run.
  reflexivity.
Qed.

Lemma wait_next fuel tick sec :
  sec < Wait -> check tick <> Ok true ->
  let rest := wait fuel cli initReq (S tick) (wrap64 (sec + Retry)) in
  completion (wait (S fuel) cli initReq tick sec) = completion rest /\
  ticks (events (wait (S fuel) cli initReq tick sec)) = S (ticks (events rest)) /\
  exists log, events (wait (S fuel) cli initReq tick sec) =
                Request (CallCheckServiceInit initReq) :: log ++ Sleep 10 :: events rest /\
              (log = [] \/ exists err, check tick = Err err /\
                 log = [Println [VStr "check service init error"; VErr err]]).
Proof.
  intros H E rest. apply Z.ltb_lt in H. rewrite wait_unfold, H. run.
  destruct (CatalogCheckServiceInit cli tick initReq) as [[|]|err] eqn:C;
    try congruence; run; fold rest.
  - repeat split. exists []. split; [reflexivity | now left].
  - repeat split.
    exists [Println [VStr "check service init error"; VErr err]].
    split; [reflexivity | right; eauto].
Qed.

(** Every event of the loop is a check for [initReq], a sleep of ten
    seconds or a print. *)
Lemma wait_events fuel : forall tick sec,
  Forall (pollEvent initReq) (events (wait fuel cli initReq tick sec)).
Proof.
  induction fuel as [|fuel IH]; intros tick sec.
  - simpl. destruct (sec <? Wait); constructor.
  - destruct (Z.lt_ge_cases sec Wait) as [H|H].
    + destruct (CatalogCheckServiceInit cli tick initReq) as [[|]|err] eqn:C.
      * rewrite wait_done by assumption. repeat constructor.
      * destruct (wait_next fuel tick sec H) as (_ & _ & log & -> & L); [congruence|].
        constructor; [reflexivity|]. apply Forall_app. split.
        -- destruct L as [->|(e & _ & ->)]; repeat constructor.
        -- constructor; [reflexivity | apply IH].
      * destruct (wait_next fuel tick sec H) as (_ & _ & log & -> & L); [congruence|].
        constructor; [reflexivity|]. apply Forall_app. split.
        -- destruct L as [->|(e & _ & ->)]; repeat constructor.
        -- constructor; [reflexivity | apply IH].
    + rewrite wait_stop by assumption. constructor.
Qed.

Hypothesis Retry_pos : 0 < Retry.
Hypothesis no_overflow : Wait + Retry <= 2 ^ 63.

(** The check answers "initialized" first at the tick [tick + k], inside
    the budget: the loop returns from the function after [k + 1] checks. *)
Lemma wait_success : forall k fuel tick sec,
  (k < fuel)%nat -> 0 <= sec ->
  sec + Z.of_nat k * Retry < Wait ->
  (forall i, (i < k)%nat -> check (tick + i) <> Ok true) ->
  check (tick + k) = Ok true ->
  completion (wait fuel cli initReq tick sec) = Return true /\
  ticks (events (wait fuel cli initReq tick sec)) = S k.
Proof.
  induction k as [|k IH]; intros fuel tick sec Hf Hs Hb Hn Hk.
  - destruct fuel as [|fuel]; [lia|]. rewrite Nat.add_0_r in Hk.
    rewrite wait_done by (assumption || lia). split; reflexivity.
  - destruct fuel as [|fuel]; [lia|].
    destruct (wait_next fuel tick sec) as (C & T & _).
    + nia.
    + specialize (Hn 0%nat). rewrite Nat.add_0_r in Hn. apply Hn. lia.
    + rewrite C, T. rewrite wrap64_small by nia.
      destruct (IH fuel (S tick) (sec + Retry)) as (C' & T').
      * lia.
      * lia.
      * nia.
      * intros i Hi. replace (S tick + i)%nat with (tick + S i)%nat by lia.
        apply Hn. lia.
      * replace (S tick + k)%nat with (tick + S k)%nat by lia. assumption.
      * rewrite C', T'. split; reflexivity.
Qed.

(** No tick inside the budget answers "initialized": the loop ends after
    the [n] checks that fit the budget. *)
Lemma wait_timeout : forall N fuel tick sec,
  (N <= fuel)%nat -> 0 <= sec ->
  Wait <= sec + Z.of_nat N * Retry ->
  (forall i, (i < N)%nat -> check (tick + i) <> Ok true) ->
  let p := wait fuel cli initReq tick sec in
  completion p = Return false /\
  (ticks (events p) <= N)%nat /\
  Wait <= sec + Z.of_nat (ticks (events p)) * Retry /\
  ((0 < ticks (events p))%nat ->
   sec + (Z.of_nat (ticks (events p)) - 1) * Retry < Wait).
Proof.
  induction N as [|N IH]; intros fuel tick sec Hf Hs Hb Hn p; subst p.
  - rewrite wait_stop by lia.
    change (ticks (events (@nil Event, Return false))) with 0%nat.
    repeat split; lia.
  - destruct (Z.lt_ge_cases sec Wait) as [H|H].
    + destruct fuel as [|fuel]; [lia|].
      destruct (wait_next fuel tick sec) as (C & T & _).
      * assumption.
      * specialize (Hn 0%nat). rewrite Nat.add_0_r in Hn. apply Hn. lia.
      * rewrite C, T. rewrite wrap64_small by nia.
        destruct (IH fuel (S tick) (sec + Retry)) as (C' & T1 & T2 & T3).
        -- lia.
        -- lia.
        -- nia.
        -- intros i Hi. replace (S tick + i)%nat with (tick + S i)%nat by lia.
           apply Hn. lia.
        -- rewrite C'. repeat split; try lia; nia.
    + rewrite wait_stop by lia.
      change (ticks (events (@nil Event, Return false))) with 0%nat.
      repeat split; lia.
Qed.

End Poller.

(** Errors of the check change neither the way the loop ends nor the
    number of its checks. *)
Lemma wait_withoutCheckErrors Wait Retry cli initReq : forall fuel tick sec,
  completion (waitInitialized Wait Retry fuel cli initReq tick sec) =
    completion (waitInitialized Wait Retry fuel (withoutCheckErrors cli) initReq tick sec) /\
  ticks (events (waitInitialized Wait Retry fuel cli initReq tick sec)) =
    ticks (events (waitInitialized Wait Retry fuel (withoutCheckErrors cli) initReq tick sec)).
Proof.
  induction fuel as [|fuel IH]; intros tick sec.
  - simpl. destruct (sec <? Wait); split; reflexivity.
  - destruct (Z.lt_ge_cases sec Wait) as [H|H].
    + destruct (CatalogCheckServiceInit cli tick initReq) as [[|]|err] eqn:C.
      * rewrite !wait_done; try assumption; [split; reflexivity|].
        simpl. rewrite C. reflexivity.
      * destruct (wait_next Wait Retry cli initReq fuel tick sec H) as (C1 & T1 & _);
          [congruence|].
        destruct (wait_next Wait Retry (withoutCheckErrors cli) initReq fuel tick sec H)
          as (C2 & T2 & _); [simpl; rewrite C; congruence|].
        rewrite C1, C2, T1, T2. destruct (IH (S tick) (wrap64 (sec + Retry))) as (-> & ->).
        split; reflexivity.
      * destruct (wait_next Wait Retry cli initReq fuel tick sec H) as (C1 & T1 & _);
          [congruence|].
        destruct (wait_next Wait Retry (withoutCheckErrors cli) initReq fuel tick sec H)
          as (C2 & T2 & _); [simpl; rewrite C; congruence|].
        rewrite C1, C2, T1, T2. destruct (IH (S tick) (wrap64 (sec + Retry))) as (-> & ->).
        split; reflexivity.
    + rewrite !wait_stop by assumption. split; reflexivity.
Qed.

(** ** The creation handlers *)

Section Creation.

Variables Wait Retry : Z.
Variable MongoDB : string.
Variable fuel : nat.
Variable cli : ManageClient.
Variable f : Flags.

Local Abbreviation createMongoDB := (createMongoDBService Wait Retry MongoDB fuel cli f).
Local Abbreviation poll :=
  (waitInitialized Wait Retry fuel cli (mongoDBInitRequest MongoDB f) 0 0).

Lemma createMongoDBService_invalid :
  replicas f = 0 \/ volSizeGB f = 0 ->
  createMongoDB = ([invalidNumbers], Exit (-1)).
Proof.
  intros H. unfold createMongoDBService.
  replace ((replicas f =? 0) || (volSizeGB f =? 0))%bool with true.
  - run. reflexivity.
  - symmetry. apply orb_true_iff. rewrite !Z.eqb_eq. assumption.
Qed.

Lemma createPostgreSQLService_invalid :
  replicas f = 0 \/ volSizeGB f = 0 ->
  createPostgreSQLService cli f = ([invalidNumbers], Exit (-1)).
Proof.
  intros H. unfold createPostgreSQLService.
  replace ((replicas f =? 0) || (volSizeGB f =? 0))%bool with true.
  - run. reflexivity.
  - symmetry. apply orb_true_iff. rewrite !Z.eqb_eq. assumption.
Qed.

Lemma valid_numbers :
  replicas f <> 0 -> volSizeGB f <> 0 ->
  ((replicas f =? 0) || (volSizeGB f =? 0))%bool = false.
Proof.
  intros H1 H2. apply orb_false_iff. rewrite !Z.eqb_neq. split; assumption.
Qed.

Lemma createPostgreSQLService_valid :
  replicas f <> 0 -> volSizeGB f <> 0 ->
  createPostgreSQLService cli f =
    match CatalogCreatePostgreSQLService cli (postgreSQLRequest f) with
    | Some err =>
        ([Request (CallCreatePostgreSQL (postgreSQLRequest f));
          Println [VStr "create postgresql service error"; VErr err]], Exit (-1))
    | None =>
        ([Request (CallCreatePostgreSQL (postgreSQLRequest f));
          Println [VStr "The postgresql service is created"]], Return tt)
    end.
Proof.
  intros H1 H2. unfold createPostgreSQLService. rewrite valid_numbers by assumption.
  run. destruct (CatalogCreatePostgreSQLService cli (postgreSQLRequest f)); run;
    reflexivity.
Qed.

(** The run of [createMongoDBService] on valid numbers, from the run of
    its wait loop. *)
Lemma createMongoDBService_valid :
  replicas f <> 0 -> volSizeGB f <> 0 ->
  createMongoDB =
    match CatalogCreateMongoDBService cli (mongoDBRequest f) with
    | Some err =>
        ([Request (CallCreateMongoDB (mongoDBRequest f));
          Println [VStr "create catalog mongodb service error"; VErr err]], Exit (-1))
    | None =>
        (Request (CallCreateMongoDB (mongoDBRequest f))
         :: Println [VStr "The catalog service is created, wait till it gets initialized"]
         :: events poll ++
            match completion poll with
            | Return false =>
                [Println [VStr "The catalog service is not initialized after"; VInt Wait]]
            | _ => []
            end,
         match completion poll with
         | Return true => Return tt
         | Return false => Exit (-1)
         | Exit code => Exit code
         | OutOfFuel => OutOfFuel
         end)
    end.
Proof.
  intros H1 H2. unfold createMongoDBService. rewrite valid_numbers by assumption.
  run. destruct (CatalogCreateMongoDBService cli (mongoDBRequest f)); run;
    [reflexivity|].
  destruct poll as [t [[|]| |]]; run; rewrite ?app_nil_r; reflexivity.
Qed.

Lemma createMongoDBService_requests req :
  In (Request (CallCreateMongoDB req)) (events createMongoDB) ->
  req = mongoDBRequest f.
Proof.
  destruct (Z.eq_dec (replicas f) 0) as [H1|H1];
    [rewrite createMongoDBService_invalid by tauto; simpl;
     intros [H|[]]; discriminate|].
  destruct (Z.eq_dec (volSizeGB f) 0) as [H2|H2];
    [rewrite createMongoDBService_invalid by tauto; simpl;
     intros [H|[]]; discriminate|].
  rewrite createMongoDBService_valid by assumption.
  destruct (CatalogCreateMongoDBService cli (mongoDBRequest f)).
  - simpl. intros [H|[H|[]]]; congruence.
  - cbn [events fst]. intros [H|[H|H]]; try congruence.
    apply in_app_or in H. destruct H as [H|H].
    + pose proof (wait_events Wait Retry cli (mongoDBInitRequest MongoDB f) fuel 0%nat 0) as F.
      rewrite Forall_forall in F. apply F in H. contradiction.
    + destruct (completion poll) as [[|]| |]; simpl in H; try contradiction.
      destruct H as [H|[]]. discriminate.
Qed.

Lemma createPostgreSQLService_requests req :
  In (Request (CallCreatePostgreSQL req)) (events (createPostgreSQLService cli f)) ->
  req = postgreSQLRequest f.
Proof.
  destruct (Z.eq_dec (replicas f) 0) as [H1|H1];
    [rewrite createPostgreSQLService_invalid by tauto; simpl;
     intros [H|[]]; discriminate|].
  destruct (Z.eq_dec (volSizeGB f) 0) as [H2|H2];
    [rewrite createPostgreSQLService_invalid by tauto; simpl;
     intros [H|[]]; discriminate|].
  rewrite createPostgreSQLService_valid by assumption.
  destruct (CatalogCreatePostgreSQLService cli (postgreSQLRequest f));
    simpl; intros [H|[H|[]]]; congruence.
Qed.

End Creation.

(** ** Validation of the replica number and the volume size *)

(** C3, as the code has it: a create request of either variant with
    replicaCount = 0 or volumeSizeGB = 0 is rejected with a nonzero status
    before any call of the adapter; the only event of the run is the print
    of the cause. *)
Theorem C3_zero_numbers_rejected :
  forall Wait Retry MongoDB fuel cli f,
    replicas f = 0 \/ volSizeGB f = 0 ->
    rejectedBeforeAnyCall (createMongoDBService Wait Retry MongoDB fuel cli f) /\
    rejectedBeforeAnyCall (createPostgreSQLService cli f) /\
    events (createMongoDBService Wait Retry MongoDB fuel cli f) = [invalidNumbers] /\
    events (createPostgreSQLService cli f) = [invalidNumbers].
Proof.
  intros Wait Retry MongoDB fuel cli f H.
  rewrite createMongoDBService_invalid, createPostgreSQLService_invalid by assumption.
  assert (rejectedBeforeAnyCall (A:=unit) ([invalidNumbers], Exit (-1))) as R.
  { split.
    - exists 255. split; [reflexivity | discriminate].
    - repeat constructor. }
  repeat split; try apply R.
Qed.

Lemma C3_zero_numbers_rejected_witness :
  let f := flagsFor opCreate "mongodb" 3 0 in
  let cli := stubClient None (readyAfter 0) (Ok []) None in
  rejectedBeforeAnyCall (createMongoDBService 120 3 "mongodb" 40 cli f) /\
  rejectedBeforeAnyCall (createPostgreSQLService cli f) /\
  events (createMongoDBService 120 3 "mongodb" 40 cli f) = [invalidNumbers] /\
  events (createPostgreSQLService cli f) = [invalidNumbers].
Proof.
  intros f cli. apply (C3_zero_numbers_rejected 120 3 "mongodb" 40%nat cli f).
  right. reflexivity.
Defined.

(** C3 fails as stated: with replicas = -1 neither variant is rejected; the
    create request, carrying the negative replica number, is sent to the
    adapter and both runs end with status 0. *)
Lemma C3_negative_replicas_not_rejected :
  let f := flagsFor opCreate "mongodb" (-1) 20 in
  let cli := stubClient None (readyAfter 0) (Ok []) None in
  (replicas f <= 0 \/ volSizeGB f <= 0) /\
  ~ rejectedBeforeAnyCall (createMongoDBService 120 3 "mongodb" 40 cli f) /\
  ~ rejectedBeforeAnyCall (createPostgreSQLService cli f) /\
  hd_error (events (createMongoDBService 120 3 "mongodb" 40 cli f)) =
    Some (Request (CallCreateMongoDB (mongoDBRequest f))) /\
  hd_error (events (createPostgreSQLService cli f)) =
    Some (Request (CallCreatePostgreSQL (postgreSQLRequest f))) /\
  CatalogCreateMongoDBRequest.Replicas (mongoDBRequest f) = -1 /\
  exitStatus (completion (createMongoDBService 120 3 "mongodb" 40 cli f)) = Some 0 /\
  exitStatus (completion (createPostgreSQLService cli f)) = Some 0.
Proof.
  intros f cli. split; [left; vm_compute; discriminate|].
  split; [|split].
  - intros [(s & E & N) _]. vm_compute in E. congruence.
  - intros [(s & E & N) _]. vm_compute in E. congruence.
  - repeat split; reflexivity.
Qed.

(** ** The requests of the creation *)

(** C7: the administrative principal of the request that
    [createPostgreSQLService] sends is the fixed "postgres" whatever the
    [admin] flag is, the one of the request that [createMongoDBService]
    sends is the [admin] flag; the service identity, the resources, the
    replica number, the volume size and the admin password of both come from
    the flags.  With valid numbers each handler sends its request first. *)
Theorem C7_admin_principal :
  forall Wait Retry MongoDB fuel cli f,
    (forall req,
        In (Request (CallCreatePostgreSQL req)) (events (createPostgreSQLService cli f)) ->
        CatalogCreatePostgreSQLRequest.Admin req = "postgres" /\
        CatalogCreatePostgreSQLRequest.Service req =
          ServiceCommonRequest.mk (region f) (cluster f) (service f) /\
        CatalogCreatePostgreSQLRequest.Resource req =
          Resources.mk (cpuUnits f) (cpuUnits f) (reserveMemMB f) (reserveMemMB f) /\
        CatalogCreatePostgreSQLRequest.Replicas req = replicas f /\
        CatalogCreatePostgreSQLRequest.VolumeSizeGB req = volSizeGB f /\
        CatalogCreatePostgreSQLRequest.AdminPasswd req = adminPasswd f) /\
    (forall req,
        In (Request (CallCreateMongoDB req))
           (events (createMongoDBService Wait Retry MongoDB fuel cli f)) ->
        CatalogCreateMongoDBRequest.Admin req = admin f /\
        CatalogCreateMongoDBRequest.Service req =
          ServiceCommonRequest.mk (region f) (cluster f) (service f) /\
        CatalogCreateMongoDBRequest.Resource req =
          Resources.mk (cpuUnits f) (cpuUnits f) (reserveMemMB f) (reserveMemMB f) /\
        CatalogCreateMongoDBRequest.Replicas req = replicas f /\
        CatalogCreateMongoDBRequest.VolumeSizeGB req = volSizeGB f /\
        CatalogCreateMongoDBRequest.AdminPasswd req = adminPasswd f) /\
    (replicas f <> 0 -> volSizeGB f <> 0 ->
     (exists req, hd_error (events (createPostgreSQLService cli f)) =
                    Some (Request (CallCreatePostgreSQL req))) /\
     (exists req, hd_error (events (createMongoDBService Wait Retry MongoDB fuel cli f)) =
                    Some (Request (CallCreateMongoDB req)))).
Proof.
  intros Wait Retry MongoDB fuel cli f. split; [|split].
  - intros req H. apply createPostgreSQLService_requests in H. subst req.
    repeat split.
  - intros req H. apply createMongoDBService_requests in H. subst req.
    repeat split.
  - intros H1 H2.
    rewrite createPostgreSQLService_valid, createMongoDBService_valid by assumption.
    split.
    + exists (postgreSQLRequest f).
      destruct (CatalogCreatePostgreSQLService cli (postgreSQLRequest f)); reflexivity.
    + exists (mongoDBRequest f).
      destruct (CatalogCreateMongoDBService cli (mongoDBRequest f)); reflexivity.
Qed.

(** A PostgreSQL creation with the admin flag "dbadmin": the request is
    sent for "postgres". *)
Lemma C7_admin_principal_witness :
  let cli := stubClient None (readyAfter 0) (Ok []) None in
  let f := flagsFor opCreate "postgresql" 3 20 in
  admin f = "dbadmin" /\
  (exists req, hd_error (events (createPostgreSQLService cli f)) =
                 Some (Request (CallCreatePostgreSQL req)) /\
               CatalogCreatePostgreSQLRequest.Admin req = "postgres") /\
  (exists req, hd_error (events (createMongoDBService 120 3 "mongodb" 40 cli f)) =
                 Some (Request (CallCreateMongoDB req)) /\
               CatalogCreateMongoDBRequest.Admin req = "dbadmin").
Proof.
  intros cli f. split; [reflexivity|].
  destruct (C7_admin_principal 120 3 "mongodb" 40 cli f) as (P & M & _).
  split.
  - exists (postgreSQLRequest f). split; [reflexivity|].
    apply P. left. reflexivity.
  - exists (mongoDBRequest f). split; [reflexivity|].
    apply (M (mongoDBRequest f)). left. reflexivity.
Defined.

(** C10: in every create request of either variant MaxCPUUnits and
    ReserveCPUUnits are both the cpu-units flag and MaxMemMB and ReserveMemMB
    are both the soft-memory flag, so the reservation never exceeds the
    maximum and the maximum has no input of its own.  With valid numbers
    each handler sends such a request. *)
Theorem C10_max_equals_reserve :
  forall Wait Retry MongoDB fuel cli f,
    (forall req,
        In (Request (CallCreateMongoDB req))
           (events (createMongoDBService Wait Retry MongoDB fuel cli f)) ->
        let r := CatalogCreateMongoDBRequest.Resource req in
        Resources.MaxCPUUnits r = cpuUnits f /\
        Resources.ReserveCPUUnits r = cpuUnits f /\
        Resources.MaxMemMB r = reserveMemMB f /\
        Resources.ReserveMemMB r = reserveMemMB f /\
        Resources.ReserveCPUUnits r <= Resources.MaxCPUUnits r /\
        Resources.ReserveMemMB r <= Resources.MaxMemMB r) /\
    (forall req,
        In (Request (CallCreatePostgreSQL req)) (events (createPostgreSQLService cli f)) ->
        let r := CatalogCreatePostgreSQLRequest.Resource req in
        Resources.MaxCPUUnits r = cpuUnits f /\
        Resources.ReserveCPUUnits r = cpuUnits f /\
        Resources.MaxMemMB r = reserveMemMB f /\
        Resources.ReserveMemMB r = reserveMemMB f /\
        Resources.ReserveCPUUnits r <= Resources.MaxCPUUnits r /\
        Resources.ReserveMemMB r <= Resources.MaxMemMB r) /\
    (replicas f <> 0 -> volSizeGB f <> 0 ->
     In (Request (CallCreateMongoDB (mongoDBRequest f)))
        (events (createMongoDBService Wait Retry MongoDB fuel cli f)) /\
     In (Request (CallCreatePostgreSQL (postgreSQLRequest f)))
        (events (createPostgreSQLService cli f))).
Proof.
  intros Wait Retry MongoDB fuel cli f. split; [|split].
  - intros req H. apply createMongoDBService_requests in H. subst req.
    cbn. repeat split; lia.
  - intros req H. apply createPostgreSQLService_requests in H. subst req.
    cbn. repeat split; lia.
  - intros H1 H2.
    rewrite createMongoDBService_valid, createPostgreSQLService_valid by assumption.
    split.
    + destruct (CatalogCreateMongoDBService cli (mongoDBRequest f)); left; reflexivity.
    + destruct (CatalogCreatePostgreSQLService cli (postgreSQLRequest f));
        left; reflexivity.
Qed.

Lemma C10_max_equals_reserve_witness :
  let cli := stubClient None (readyAfter 0) (Ok []) None in
  let f := flagsFor opCreate "mongodb" 3 20 in
  let r := CatalogCreateMongoDBRequest.Resource (mongoDBRequest f) in
  Resources.MaxCPUUnits r = 256 /\
  Resources.ReserveCPUUnits r = 256 /\
  Resources.MaxMemMB r = 256 /\
  Resources.ReserveMemMB r = 256 /\
  Resources.ReserveCPUUnits r <= Resources.MaxCPUUnits r /\
  Resources.ReserveMemMB r <= Resources.MaxMemMB r.
Proof.
  intros cli f.
  apply (proj1 (C10_max_equals_reserve 120 3 "mongodb" 40 cli f) (mongoDBRequest f)).
  left. reflexivity.
Defined.

(** ** The wait for the initialization *)

Lemma wait_last Wait Retry cli initReq : forall fuel tick sec,
  completion (waitInitialized Wait Retry fuel cli initReq tick sec) = Return true ->
  exists pre,
    events (waitInitialized Wait Retry fuel cli initReq tick sec) =
      pre ++ [initializedMessage].
Proof.
  induction fuel as [|fuel IH]; intros tick sec.
  - simpl. destruct (sec <? Wait); discriminate.
  - destruct (Z.lt_ge_cases sec Wait) as [H|H].
    + destruct (CatalogCheckServiceInit cli tick initReq) as [[|]|err] eqn:C.
      * rewrite wait_done by assumption. intros _.
        exists [Request (CallCheckServiceInit initReq)]. reflexivity.
      * destruct (wait_next Wait Retry cli initReq fuel tick sec H)
          as (-> & _ & log & -> & _); [congruence|].
        intros R. destruct (IH _ _ R) as (pre & ->).
        exists (Request (CallCheckServiceInit initReq) :: log ++ Sleep 10 :: pre).
        simpl. rewrite <- app_assoc. reflexivity.
      * destruct (wait_next Wait Retry cli initReq fuel tick sec H)
          as (-> & _ & log & -> & _); [congruence|].
        intros R. destruct (IH _ _ R) as (pre & ->).
        exists (Request (CallCheckServiceInit initReq) :: log ++ Sleep 10 :: pre).
        simpl. rewrite <- app_assoc. reflexivity.
    + rewrite wait_stop by assumption. discriminate.
Qed.

(** With a positive step and a bound of [Wait] iterations the loop ends:
    it returns from the function or runs to its end. *)
Lemma wait_total Wait Retry cli initReq :
  0 < Retry -> Wait + Retry <= 2 ^ 63 ->
  forall fuel tick sec,
    0 <= sec -> (Z.to_nat (Wait - sec) <= fuel)%nat ->
    completion (waitInitialized Wait Retry fuel cli initReq tick sec) = Return true \/
    completion (waitInitialized Wait Retry fuel cli initReq tick sec) = Return false.
Proof.
  intros HR HO. induction fuel as [|fuel IH]; intros tick sec Hs Hf.
  - rewrite wait_stop by lia. right. reflexivity.
  - destruct (Z.lt_ge_cases sec Wait) as [H|H].
    + destruct (CatalogCheckServiceInit cli tick initReq) as [[|]|err] eqn:C.
      * rewrite wait_done by assumption. left. reflexivity.
      * destruct (wait_next Wait Retry cli initReq fuel tick sec H) as (-> & _);
          [congruence|].
        rewrite wrap64_small by lia. apply IH; lia.
      * destruct (wait_next Wait Retry cli initReq fuel tick sec H) as (-> & _);
          [congruence|].
        rewrite wrap64_small by lia. apply IH; lia.
    + rewrite wait_stop by assumption. right. reflexivity.
Qed.


(** C6: an error of the check neither ends the wait nor resets its budget.
    The creation ends in the same way and after the same number of checks
    as with the client whose every check error is the answer "not
    initialized"; it returns with success after j + 1 checks when tick j + 1
    is the first to answer "initialized" and j * interval < budget, whatever
    errors came before; and when no tick answers "initialized" it times out
    after the n checks that fit the budget, (n - 1) * interval < budget <=
    n * interval, whichever of them failed. *)
Theorem C6_check_errors_are_transient :
  forall Wait Retry MongoDB cli f (fuel : nat),
    0 < Retry -> Wait + Retry <= 2 ^ 63 ->
    replicas f <> 0 -> volSizeGB f <> 0 ->
    CatalogCreateMongoDBService cli (mongoDBRequest f) = None ->
    let check tick := CatalogCheckServiceInit cli tick (mongoDBInitRequest MongoDB f) in
    let p := createMongoDBService Wait Retry MongoDB fuel cli f in
    let q := createMongoDBService Wait Retry MongoDB fuel (withoutCheckErrors cli) f in
    (completion p = completion q /\ ticks (events p) = ticks (events q)) /\
    (forall j : nat,
        (j < fuel)%nat -> Z.of_nat j * Retry < Wait ->
        (forall i, (i < j)%nat -> check i <> Ok true) -> check j = Ok true ->
        completion p = Return tt /\ ticks (events p) = S j) /\
    (forall N : nat,
        (N <= fuel)%nat -> Wait <= Z.of_nat N * Retry ->
        (forall i, (i < N)%nat -> check i <> Ok true) ->
        completion p = Exit (-1) /\
        Wait <= Z.of_nat (ticks (events p)) * Retry /\
        ((0 < ticks (events p))%nat ->
         (Z.of_nat (ticks (events p)) - 1) * Retry < Wait)).
Proof.
  intros Wait Retry MongoDB cli f fuel HR HO H1 H2 HC check p q.
  assert (forall t (c : Completion bool),
            ticks (Request (CallCreateMongoDB (mongoDBRequest f))
                   :: Println [VStr "The catalog service is created, wait till it gets initialized"]
                   :: t ++ match c with
                           | Return false => [timeoutMessage Wait]
                           | _ => []
                           end) = ticks t) as Tk.
  { intros t c. change (?a :: ?b :: ?l) with ([a; b] ++ l).
    rewrite !ticks_app. destruct c as [[|]| |]; unfold ticks; simpl; lia. }
  split; [|split].
  - subst p q. rewrite !createMongoDBService_valid by assumption.
    change (CatalogCreateMongoDBService (withoutCheckErrors cli) (mongoDBRequest f))
      with (CatalogCreateMongoDBService cli (mongoDBRequest f)).
    rewrite HC. cbn [events completion fst snd].
    destruct (wait_withoutCheckErrors Wait Retry cli (mongoDBInitRequest MongoDB f)
                fuel 0%nat 0) as (C & T).
    unfold timeoutMessage in Tk. rewrite !Tk. rewrite <- C. split;
      [reflexivity | exact T].
  - intros j Hj Hb Hn Hk. subst p.
    rewrite createMongoDBService_valid, HC by assumption.
    destruct (wait_success Wait Retry cli (mongoDBInitRequest MongoDB f) HR HO
                j fuel 0%nat 0) as (C & T); try assumption; try lia.
    cbn [events completion fst snd]. unfold timeoutMessage in Tk.
    rewrite Tk. rewrite C. split; [reflexivity | exact T].
  - intros N HN Hb Hn. subst p.
    rewrite createMongoDBService_valid, HC by assumption.
    destruct (wait_timeout Wait Retry cli (mongoDBInitRequest MongoDB f) HR HO
                N fuel 0%nat 0) as (C & _ & T1 & T2); try assumption; try lia.
    cbn [events completion fst snd]. unfold timeoutMessage in Tk.
    rewrite Tk. rewrite C. split; [reflexivity|]. split.
    + lia.
    + intros Hp. specialize (T2 Hp). lia.
Qed.

(** The run of the spec: ten ticks fit the budget, the check fails at the
    second and the fourth and answers "initialized" at the sixth. *)
Lemma C6_check_errors_are_transient_witness :
  let cli := stubClient None flakyCheck (Ok []) None in
  let f := flagsFor opCreate "mongodb" 3 20 in
  let p := createMongoDBService 100 10 "mongodb" 10 cli f in
  completion p = Return tt /\ ticks (events p) = 6%nat.
Proof.
  intros cli f.
  refine (proj1 (proj2 (C6_check_errors_are_transient 100 10 "mongodb" cli f 10
                          _ _ _ _ _)) 5%nat _ _ _ _).
  - lia.
  - lia.
  - vm_compute. discriminate.
  - vm_compute. discriminate.
  - reflexivity.
  - lia.
  - lia.
  - intros i Hi. destruct i as [|[|[|[|[|i]]]]]; try discriminate. lia.
  - reflexivity.
Defined.

(** ** Creation and the wait that follows it *)

(** After a successful creation call [createMongoDBService] prints that
    the service is created and enters the wait loop: all that follows are
    checks for the same service identity and admin credentials, sleeps and
    prints, the first of them a check when the budget is positive.  After a
    successful creation call [createPostgreSQLService] prints that the
    service is created and returns. *)
Lemma creation_then_wait :
  forall Wait Retry MongoDB fuel cli f,
    replicas f <> 0 -> volSizeGB f <> 0 ->
    (CatalogCreateMongoDBService cli (mongoDBRequest f) = None ->
     let p := createMongoDBService Wait Retry MongoDB fuel cli f in
     exists trace,
       events p = Request (CallCreateMongoDB (mongoDBRequest f))
                  :: createdMessage :: trace /\
       Forall (pollEvent (mongoDBInitRequest MongoDB f)) trace /\
       CatalogCheckServiceInitRequest.Service (mongoDBInitRequest MongoDB f) =
         CatalogCreateMongoDBRequest.Service (mongoDBRequest f) /\
       (0 < Wait -> (0 < fuel)%nat ->
        hd_error trace =
          Some (Request (CallCheckServiceInit (mongoDBInitRequest MongoDB f)))) /\
       (0 < Retry -> Wait + Retry <= 2 ^ 63 -> (Z.to_nat Wait <= fuel)%nat ->
        completion p = Return tt \/ completion p = Exit (-1))) /\
    (CatalogCreatePostgreSQLService cli (postgreSQLRequest f) = None ->
     createPostgreSQLService cli f =
       ([Request (CallCreatePostgreSQL (postgreSQLRequest f));
         Println [VStr "The postgresql service is created"]], Return tt) /\
     ticks (events (createPostgreSQLService cli f)) = 0%nat).
Proof.
  intros Wait Retry MongoDB fuel cli f H1 H2. split.
  - intros HC p. subst p. rewrite createMongoDBService_valid, HC by assumption.
    cbn [events completion fst snd].
    set (poll := waitInitialized Wait Retry fuel cli (mongoDBInitRequest MongoDB f) 0 0).
    eexists. split; [reflexivity|]. split; [|split; [reflexivity|split]].
    + apply Forall_app. split.
      * apply wait_events.
      * destruct (completion poll) as [[|]| |]; repeat constructor.
    + intros HW Hf. subst poll. destruct fuel as [|fuel']; [lia|].
      destruct (CatalogCheckServiceInit cli 0 (mongoDBInitRequest MongoDB f))
        as [[|]|err] eqn:C.
      * rewrite wait_done by assumption. reflexivity.
      * destruct (wait_next Wait Retry cli (mongoDBInitRequest MongoDB f) fuel' 0%nat 0 HW)
          as (_ & _ & log & -> & _); [congruence | reflexivity].
      * destruct (wait_next Wait Retry cli (mongoDBInitRequest MongoDB f) fuel' 0%nat 0 HW)
          as (_ & _ & log & -> & _); [congruence | reflexivity].
    + intros HR HO Hf.
      destruct (wait_total Wait Retry cli (mongoDBInitRequest MongoDB f) HR HO
                  fuel 0%nat 0) as [C|C]; try lia; fold poll in C; rewrite C.
      * left. reflexivity.
      * right. reflexivity.
  - intros HC. rewrite createPostgreSQLService_valid, HC by assumption.
    split; reflexivity.
Qed.

(** C4 fails as stated for the relational store: after the successful
    creation call [createPostgreSQLService] calls no initialization check;
    the run is the request and one print, and it returns. *)
Lemma C4_postgresql_creation_is_not_polled :
  let cli := stubClient None (readyAfter 2) (Ok []) None in
  let f := flagsFor opCreate "postgresql" 3 20 in
  CatalogCreatePostgreSQLService cli (postgreSQLRequest f) = None /\
  ticks (events (createPostgreSQLService cli f)) = 0%nat /\
  ~ (exists req, In (Request (CallCheckServiceInit req))
                    (events (createPostgreSQLService cli f))) /\
  ticks (events (createMongoDBService 120 3 "mongodb" 40 cli f)) = 3%nat.
Proof.
  intros cli f. split; [reflexivity|]. split; [reflexivity|]. split.
  - intros (req & H). vm_compute in H.
    destruct H as [H|[H|[]]]; discriminate.
  - reflexivity.
Qed.

(** ** The deletion *)

Lemma assignAt_middle (pre rest : list string) (x v : string) :
  assignAt (List.length pre) v (pre ++ x :: rest) = pre ++ v :: rest.
Proof.
  induction pre as [|y pre IH]; simpl; [reflexivity|]. rewrite IH. reflexivity.
Qed.

Lemma rangeVolumeIDs_map (members : list ServiceMember.t) : forall pre,
  rangeVolumeIDs (List.length pre) members
    (pre ++ repeat "" (List.length members)) =
  pre ++ map ServiceMember.VolumeID members.
Proof.
  induction members as [|member rest IH]; intros pre; simpl.
  - reflexivity.
  - rewrite assignAt_middle.
    replace (pre ++ ServiceMember.VolumeID member :: repeat "" (List.length rest))
      with ((pre ++ [ServiceMember.VolumeID member]) ++ repeat "" (List.length rest))
      by (rewrite <- app_assoc; reflexivity).
    replace (S (List.length pre)) with (List.length (pre ++ [ServiceMember.VolumeID member]))
      by (rewrite length_app; simpl; lia).
    rewrite IH, <- app_assoc. reflexivity.
Qed.

(** The loop of [deleteService] collects the volume of every member, in
    the order of the members. *)
Lemma collectVolumeIDs_map (members : list ServiceMember.t) :
  collectVolumeIDs members = map ServiceMember.VolumeID members.
Proof. apply (rangeVolumeIDs_map members []). Qed.

Lemma deleteService_run (cli : ManageClient) (f : Flags) :
  deleteService cli f =
    match ListServiceMember cli (ListServiceMemberRequest.mk (commonRequest f)) with
    | Err err =>
        ([listCall f; Println [VStr "ListServiceMember error"; VErr err]], Exit (-1))
    | Ok members =>
        match DeleteService cli (commonRequest f) with
        | Some err =>
            ([listCall f; deleteCall f;
              Println [VStr "DeleteService error"; VErr err]], Exit (-1))
        | None =>
            ([listCall f; deleteCall f;
              deletedMessage (map ServiceMember.VolumeID members)], Return tt)
        end
    end.
Proof.
  unfold deleteService, listServiceMembers. run.
  destruct (ListServiceMember cli _) as [members|err]; run; [|reflexivity].
  destruct (DeleteService cli _) as [err|]; run; [reflexivity|].
  rewrite collectVolumeIDs_map. reflexivity.
Qed.

Lemma head_in_prefix {A} (x e : A) (l pre post : list A) :
  l = pre ++ e :: post -> hd_error l = Some x -> e <> x -> In x pre.
Proof.
  intros -> H N. destruct pre as [|a pre]; simpl in H; injection H as H.
  - contradiction.
  - left. assumption.
Qed.

(** C8: the first event of the deletion is the list-members call; a
    delete-service call of the run has the list-members call before it; and
    when list-members fails the run exits with the nonzero status 255 and
    holds no delete-service call. *)
Theorem C8_list_members_before_delete :
  forall cli f,
    let p := deleteService cli f in
    hd_error (events p) = Some (listCall f) /\
    (forall pre req post,
        events p = pre ++ Request (CallDeleteService req) :: post ->
        In (listCall f) pre) /\
    (forall err,
        ListServiceMember cli (ListServiceMemberRequest.mk (commonRequest f)) = Err err ->
        completion p = Exit (-1) /\ exitStatus (completion p) = Some 255 /\
        forall req, ~ In (Request (CallDeleteService req)) (events p)).
Proof.
  intros cli f p. subst p. rewrite deleteService_run.
  split; [|split].
  - destruct (ListServiceMember cli _) as [members|err];
      [destruct (DeleteService cli _)|]; reflexivity.
  - intros pre req post E. apply (head_in_prefix _ _ _ _ _ E).
    + destruct (ListServiceMember cli _) as [members|err];
        [destruct (DeleteService cli _)|]; reflexivity.
    + discriminate.
  - intros err E. rewrite E. cbn [events completion fst snd]. repeat split.
    intros req [H|[H|[]]]; discriminate.
Qed.

(** The list-members call fails: the run exits with status 255 and calls
    no delete-service. *)
Lemma C8_list_members_before_delete_witness :
  let cli := stubClient None (readyAfter 0) (Err "connection refused") None in
  let f := flagsFor opDelete "" 3 0 in
  completion (deleteService cli f) = Exit (-1) /\
  exitStatus (completion (deleteService cli f)) = Some 255 /\
  forall req, ~ In (Request (CallDeleteService req)) (events (deleteService cli f)).
Proof.
  intros cli f.
  exact (proj2 (proj2 (C8_list_members_before_delete cli f))
           "connection refused" eq_refl).
Defined.

(** C1, as the code has it: when list-members succeeds and delete-service
    fails, the run prints the delete error, not the volume ids, and exits
    with the nonzero status 255; the volume ids captured from the members
    are printed, all and in order, when delete-service succeeds. *)
Theorem C1_volume_ids_reported_after_delete_succeeds :
  forall cli f members,
    ListServiceMember cli (ListServiceMemberRequest.mk (commonRequest f)) = Ok members ->
    let p := deleteService cli f in
    (forall err,
        DeleteService cli (commonRequest f) = Some err ->
        events p = [listCall f; deleteCall f;
                    Println [VStr "DeleteService error"; VErr err]] /\
        completion p = Exit (-1) /\ exitStatus (completion p) = Some 255) /\
    (DeleteService cli (commonRequest f) = None ->
     events p = [listCall f; deleteCall f;
                 deletedMessage (map ServiceMember.VolumeID members)] /\
     completion p = Return tt /\
     forall member, In member members ->
       reported (ServiceMember.VolumeID member) (events p) = true).
Proof.
  intros cli f members HL p. subst p. rewrite deleteService_run, HL. split.
  - intros err HD. rewrite HD. repeat split.
  - intros HD. rewrite HD. repeat split.
    intros member Hm. cbn. rewrite !orb_false_r.
    apply orb_true_iff. right. apply existsb_exists.
    exists (ServiceMember.VolumeID member). split.
    + apply in_map. assumption.
    + apply String.eqb_refl.
Qed.

(** The scenario of the spec: two members with the volumes "vol-1" and
    "vol-2" and a successful delete-service call. *)
Lemma C1_volume_ids_reported_after_delete_succeeds_witness :
  let cli := stubClient None (readyAfter 0) (Ok twoMembers) None in
  let f := flagsFor opDelete "" 3 0 in
  events (deleteService cli f) =
    [listCall f; deleteCall f; deletedMessage ["vol-1"; "vol-2"]] /\
  completion (deleteService cli f) = Return tt /\
  forall member, In member twoMembers ->
    reported (ServiceMember.VolumeID member) (events (deleteService cli f)) = true.
Proof.
  intros cli f.
  exact (proj2 (C1_volume_ids_reported_after_delete_succeeds cli f twoMembers
                  eq_refl) eq_refl).
Defined.

(** C1 fails as stated: list-members yields the volumes "vol-1" and "vol-2"
    and delete-service fails; the run exits with status 255 and none of its
    prints shows a volume id. *)
Lemma C1_volume_ids_lost_when_delete_fails :
  let cli := stubClient None (readyAfter 0) (Ok twoMembers) (Some "service is busy") in
  let f := flagsFor opDelete "" 3 0 in
  ListServiceMember cli (ListServiceMemberRequest.mk (commonRequest f)) = Ok twoMembers /\
  DeleteService cli (commonRequest f) = Some "service is busy" /\
  exitStatus (completion (deleteService cli f)) = Some 255 /\
  reported "vol-1" (events (deleteService cli f)) = false /\
  reported "vol-2" (events (deleteService cli f)) = false /\
  events (deleteService cli f) =
    [listCall f; deleteCall f;
     Println [VStr "DeleteService error"; VErr "service is busy"]].
Proof.
  intros cli f. repeat split; reflexivity.
Qed.

(** ** The checks of [main] *)

Lemma Forall_events_bind {A B} (P : Event -> Prop) (m : Prog A) (k : A -> Prog B) :
  Forall P (events m) -> (forall a, Forall P (events (k a))) ->
  Forall P (events (bind m k)).
Proof.
  intros Hm Hk. destruct m as [t [a| |]]; [|assumption|assumption].
  rewrite events_bind_Return. apply Forall_app. split; [assumption | apply Hk].
Qed.

Lemma Forall_events_forEach {A} (P : Event -> Prop) (l : list A)
    (body : A -> Prog unit) :
  (forall x, Forall P (events (body x))) -> Forall P (events (forEach l body)).
Proof.
  intros H. induction l as [|x l IH]; simpl.
  - constructor.
  - apply Forall_events_bind; [apply H | intros _; apply IH].
Qed.

Lemma wait_notTLSMessage Wait Retry fuel cli initReq tick sec :
  Forall notTLSMessage (events (waitInitialized Wait Retry fuel cli initReq tick sec)).
Proof.
  eapply Forall_impl; [|apply wait_events].
  intros e H E. subst e. exact H.
Qed.

Ltac quiet :=
  repeat match goal with
    | |- Forall _ (events (bind _ _)) => apply Forall_events_bind; [|intros ?]
    | |- Forall _ (events (forEach _ _)) => apply Forall_events_forEach; intros ?
    | |- Forall _ (events (waitInitialized _ _ _ _ _ _ _)) => apply wait_notTLSMessage
    | |- Forall _ (events (when ?b _)) => unfold when
    | |- Forall _ (events (if ?b then _ else _)) => destruct b
    | |- Forall _ (events (match ?x with _ => _ end)) => destruct x
    | |- Forall _ (events (emit _)) => repeat constructor; discriminate
    | |- Forall _ (events (call _ _)) => repeat constructor; discriminate
    | |- Forall _ (events (local _ _)) => repeat constructor; discriminate
    | |- Forall _ (events (ret _)) => constructor
    | |- Forall _ (events (os_Exit _)) => constructor
    end.

Lemma handlers_notTLSMessage Wait Retry MongoDB fuel cli f :
  Forall notTLSMessage (events (createMongoDBService Wait Retry MongoDB fuel cli f)) /\
  Forall notTLSMessage (events (createPostgreSQLService cli f)) /\
  Forall notTLSMessage (events (checkServiceInit cli f)) /\
  Forall notTLSMessage (events (deleteService cli f)) /\
  Forall notTLSMessage (events (listServices cli f)) /\
  Forall notTLSMessage (events (getService cli f)) /\
  Forall notTLSMessage (events (listServiceMembers cli f)) /\
  Forall notTLSMessage (events (getConfig cli f)).
Proof.
  unfold createMongoDBService, createPostgreSQLService, checkServiceInit,
    deleteService, listServices, getService, listServiceMembers, getConfig.
  cbv zeta. repeat split; quiet.
Qed.

Lemma tlsPathsSet_check (f : Flags) :
  ((caFile f =? "")%string || (certFile f =? "")%string
   || (keyFile f =? "")%string)%bool = negb (Nat.eqb (tlsPathsSet f) 3) /\
  (tlsPathsSet f <= 3)%nat.
Proof.
  unfold tlsPathsSet. cbn [filter].
  destruct (caFile f =? "")%string, (certFile f =? "")%string,
    (keyFile f =? "")%string; cbn; split; (reflexivity || lia).
Qed.

Section Main.

Variables Wait Retry : Z.
Variables MongoDB PostgreSQL : string.
Variable fuel : nat.
Variable w : World.
Variable f : Flags.

Local Abbreviation run_main := (main Wait Retry MongoDB PostgreSQL fuel w f).

Lemma main_service_rejected :
  (negb (op f =? opList)%string && (service f =? "")%string)%bool = true ->
  run_main = ([serviceNameMessage], Exit (-1)).
Proof.
  intros H. unfold main. rewrite H. run. reflexivity.
Qed.

Lemma main_tls_rejected :
  (negb (op f =? opList)%string && (service f =? "")%string)%bool = false ->
  tlsEnabled f = true -> (tlsPathsSet f < 3)%nat ->
  run_main = ([tlsMessage], Exit (-1)).
Proof.
  intros H HT HP. unfold main. rewrite H, HT.
  rewrite (proj1 (tlsPathsSet_check f)).
  replace (Nat.eqb (tlsPathsSet f) 3) with false
    by (symmetry; apply Nat.eqb_neq; lia).
  run. reflexivity.
Qed.

Lemma main_notTLSMessage :
  tlsEnabled f = false \/ tlsPathsSet f = 3%nat ->
  Forall notTLSMessage (events run_main).
Proof.
  intros H. unfold main.
  apply Forall_events_bind; [quiet | intros _].
  replace (tlsEnabled f &&
           ((caFile f =? "")%string || (certFile f =? "")%string
            || (keyFile f =? "")%string))%bool with false.
  - cbv zeta.
    repeat (quiet; try apply (handlers_notTLSMessage Wait Retry MongoDB fuel)).
  - rewrite (proj1 (tlsPathsSet_check f)).
    destruct H as [-> | ->]; [reflexivity|]. rewrite andb_false_r. reflexivity.
Qed.

End Main.

(** C9, as the code has it.  With TLS enabled, an invocation with fewer
    than three of the paths {ca, cert, key} set (none, one or two) is
    rejected with a nonzero status before any call; past the check of the
    service name its whole run is the print of the TLS rejection and the
    exit with -1.  With TLS disabled, or with all three paths set, the TLS
    rejection is never printed, however many paths are set. *)
Theorem C9_tls_paths_checked_when_enabled :
  forall Wait Retry MongoDB PostgreSQL fuel w f,
    let p := main Wait Retry MongoDB PostgreSQL fuel w f in
    (tlsEnabled f = true -> (tlsPathsSet f < 3)%nat ->
     rejectedBeforeAnyCall p /\
     (op f = opList \/ service f <> "" -> p = ([tlsMessage], Exit (-1)))) /\
    (tlsEnabled f = false \/ tlsPathsSet f = 3%nat ->
     ~ In tlsMessage (events p)).
Proof.
  intros Wait Retry MongoDB PostgreSQL fuel w f p. subst p. split.
  - intros HT HP.
    destruct (negb (op f =? opList)%string && (service f =? "")%string)%bool eqn:S.
    + rewrite main_service_rejected by assumption. split.
      * split; [exists 255; split; [reflexivity | discriminate] | repeat constructor].
      * intros [H|H]; apply andb_prop in S; destruct S as [S1 S2].
        -- apply String.eqb_eq in H. rewrite H in S1. discriminate.
        -- apply String.eqb_eq in S2. contradiction.
    + rewrite main_tls_rejected by assumption. split; [|reflexivity].
      split; [exists 255; split; [reflexivity | discriminate] | repeat constructor].
  - intros H HI.
    pose proof (main_notTLSMessage Wait Retry MongoDB PostgreSQL fuel w f H) as F.
    rewrite Forall_forall in F. exact (F _ HI eq_refl).
Qed.

(** TLS enabled with the ca path alone: rejected; here the TLS rejection is
    the whole run. *)
Lemma C9_tls_paths_checked_when_enabled_witness :
  let f := withTLS true "ca.pem" "" "" (flagsFor opList "" 3 0) in
  let p := main 120 3 "mongodb" "postgresql" 40
             (stubWorld (stubClient None (readyAfter 0) (Ok []) None)) f in
  rejectedBeforeAnyCall p /\ p = ([tlsMessage], Exit (-1)).
Proof.
  intros f p.
  destruct (proj1 (C9_tls_paths_checked_when_enabled 120 3 "mongodb" "postgresql" 40
                     (stubWorld (stubClient None (readyAfter 0) (Ok []) None)) f)
              eq_refl) as (R & E).
  - vm_compute. lia.
  - split; [exact R | apply E; left; reflexivity].
Defined.

(** C9 fails as stated, in both directions.  With TLS disabled and the ca
    path alone set (one of three) the invocation is not rejected: it lists
    the services and ends with status 0.  With TLS enabled and none of the
    paths set (zero of three) the invocation is rejected. *)
Lemma C9_path_count_alone_does_not_decide :
  let world := stubWorld (stubClient None (readyAfter 0) (Ok []) None) in
  let f := withTLS false "ca.pem" "" "" (flagsFor opList "" 3 0) in
  let g := withTLS true "" "" "" (flagsFor opList "" 3 0) in
  (tlsPathsSet f = 1%nat /\
   ~ rejectedBeforeAnyCall (main 120 3 "mongodb" "postgresql" 40 world f) /\
   exitStatus (completion (main 120 3 "mongodb" "postgresql" 40 world f)) = Some 0 /\
   hd_error (events (main 120 3 "mongodb" "postgresql" 40 world f)) =
     Some (Request (CallListService (ListServiceRequest.mk "us-west-1" "default" "")))) /\
  (tlsPathsSet g = 0%nat /\
   rejectedBeforeAnyCall (main 120 3 "mongodb" "postgresql" 40 world g) /\
   main 120 3 "mongodb" "postgresql" 40 world g = ([tlsMessage], Exit (-1))).
Proof.
  intros world f g. split.
  - split; [reflexivity|]. split; [|split; reflexivity].
    intros [(s & E & N) _]. vm_compute in E. congruence.
  - split; [reflexivity|]. split; [|reflexivity].
    split; [exists 255; split; [reflexivity | discriminate]|].
    vm_compute. repeat constructor.
Qed.

(** ** The exit status of the check-service-init operation *)

(** C2, on the code: [checkServiceInit] always returns, also when the
    check call fails, so the operation check-service-init ends with status
    0 on an adapter error: its run is the request and the print of the
    error.  The sibling operation list-members exits with status 255 on the
    error of its call. *)
Theorem C2_check_init_error_ends_with_status_zero :
  (forall cli f, completion (checkServiceInit cli f) = Return tt) /\
  (let failing :=
     stubClient None (fun _ => Err "connection refused")
       (Err "connection refused") None in
   let p := main 120 3 "mongodb" "postgresql" 40 (stubWorld failing)
              (flagsFor opCheckInit "mongodb" 3 0) in
   let q := main 120 3 "mongodb" "postgresql" 40 (stubWorld failing)
              (flagsFor opListMembers "" 3 0) in
   events p =
     [Request (CallCheckServiceInit
                 (CatalogCheckServiceInitRequest.mk "mongodb"
                    (ServiceCommonRequest.mk "us-west-1" "default" "svcA")
                    "dbadmin" "changeme"));
      Println [VStr "check service init error"; VErr "connection refused"]] /\
   completion p = Return tt /\
   exitStatus (completion p) = Some 0 /\
   exitStatus (completion q) = Some 255).
Proof.
  split.
  - intros cli f. unfold checkServiceInit. cbv zeta. run.
    destruct (CatalogCheckServiceInit cli 0 _) as [[|]|err]; reflexivity.
  - repeat split; reflexivity.
Qed.

(** ** The whole of [main] *)

Lemma events_completion {A} (p : Prog A) : (events p, completion p) = p.
Proof. destruct p; reflexivity. Qed.

Lemma completion_bind {A B} (m : Prog A) (k : A -> Prog B) :
  completion (bind m k) =
    match completion m with
    | Return a => completion (k a)
    | Exit code => Exit code
    | OutOfFuel => OutOfFuel
    end.
Proof.
  destruct m as [t [a| |]]; [|reflexivity|reflexivity].
  rewrite bind_Return. reflexivity.
Qed.

Lemma events_forEach_emit {A} (l : list A) (line : A -> Event) :
  forEach l (fun x => emit (line x)) = (map line l, Return tt).
Proof.
  induction l as [|x l IH]; simpl; [reflexivity|].
  rewrite IH. run. reflexivity.
Qed.

Lemma bind_ret {A B} (a : A) (k : A -> Prog B) : bind (ret a) k = k a.
Proof. unfold ret. rewrite bind_Return. apply events_completion. Qed.

(** [main] as its checks, the region lookup and what follows them. *)
Lemma main_run Wait Retry MongoDB PostgreSQL fuel w f :
  main Wait Retry MongoDB PostgreSQL fuel w f =
    if (negb (op f =? opList)%string && (service f =? "")%string)%bool then
      ([serviceNameMessage], Exit (-1))
    else if (tlsEnabled f &&
             ((caFile f =? "")%string || (certFile f =? "")%string
              || (keyFile f =? "")%string))%bool then
      ([tlsMessage], Exit (-1))
    else if (region f =? "")%string then
      match GetLocalEc2Region w with
      | Err _ => ([LocalRegion; regionMessage], Exit (-1))
      | Ok v =>
          after LocalRegion
            (connectAndDispatch Wait Retry MongoDB PostgreSQL fuel w (setRegion v f))
      end
    else connectAndDispatch Wait Retry MongoDB PostgreSQL fuel w f.
Proof.
  assert (forall g,
    (tlsConf <- (if tlsEnabled g then
                   r <- local (LoadTLS (caFile g) (certFile g) (keyFile g))
                          (GenClientTLSConfig w (caFile g) (certFile g) (keyFile g)) ;;
                   match r with
                   | Err err =>
                       emit (Printf "GenClientTLSConfig error %s, ca file %s, cert file %s, key file %s\n"
                               [VErr err; VStr (caFile g); VStr (certFile g);
                                VStr (keyFile g)]) ;;
                       os_Exit (-1)
                   | Ok conf => ret (Some conf)
                   end
                 else ret None) ;;
     dispatch Wait Retry MongoDB PostgreSQL fuel
       (NewManageClient w (resolvedURL w g) tlsConf) (prepared w g)) =
    connectAndDispatch Wait Retry MongoDB PostgreSQL fuel w g) as Tail.
  { intros g. unfold connectAndDispatch, after. destruct (tlsEnabled g).
    - run. destruct (GenClientTLSConfig w _ _ _) as [conf|err]; run; reflexivity.
    - run. apply events_completion. }
  unfold main, when.
  destruct (negb (op f =? opList)%string && (service f =? "")%string)%bool;
    [run; reflexivity|].
  rewrite bind_ret.
  destruct (tlsEnabled f &&
            ((caFile f =? "")%string || (certFile f =? "")%string
             || (keyFile f =? "")%string))%bool; [run; reflexivity|].
  rewrite bind_ret.
  destruct (region f =? "")%string.
  - unfold local at 1. rewrite bind_Return. cbn [events completion fst snd app].
    destruct (GetLocalEc2Region w) as [v|err].
    + cbn [ret events completion fst snd]. rewrite bind_Return.
      rewrite <- (Tail (setRegion v f)). reflexivity.
    + run. reflexivity.
  - rewrite bind_ret. rewrite <- (Tail f). reflexivity.
Qed.

(** ** The single-call handlers *)

Lemma listServices_run (cli : ManageClient) (f : Flags) :
  listServices cli f =
    let req := ListServiceRequest.mk (region f) (cluster f) "" in
    match ListService cli req with
    | Err err =>
        ([Request (CallListService req);
          Println [VStr "ListService error"; VErr err]], Exit (-1))
    | Ok services =>
        (Request (CallListService req) :: servicesReport services, Return tt)
    end.
Proof.
  unfold listServices. cbv zeta. unfold call. rewrite bind_Return.
  cbn [events completion fst snd app].
  destruct (ListService cli _) as [services|err];
    [rewrite events_forEach_emit|]; run; reflexivity.
Qed.

Lemma getService_run (cli : ManageClient) (f : Flags) :
  getService cli f =
    match GetServiceAttr cli (commonRequest f) with
    | Err err =>
        ([Request (CallGetServiceAttr (commonRequest f));
          Println [VStr "GetServiceAttr error"; VErr err]], Exit (-1))
    | Ok attr =>
        ([Request (CallGetServiceAttr (commonRequest f));
          Printf "%+v\n" [VAttr attr]], Return tt)
    end.
Proof.
  unfold getService. cbv zeta. run.
  destruct (GetServiceAttr cli _) as [attr|err]; run; reflexivity.
Qed.

Lemma getConfig_run (cli : ManageClient) (f : Flags) :
  getConfig cli f =
    let req :=
      GetConfigFileRequest.mk (region f) (cluster f) (serviceUUID f) (fileID f) in
    if ((serviceUUID f =? "")%string || (fileID f =? "")%string)%bool then
      ([configMessage], Exit (-1))
    else
      match GetConfigFile cli req with
      | Err err =>
          ([Request (CallGetConfigFile req);
            Println [VStr "GetConfigFile error"; VErr err]], Exit (-1))
      | Ok cfg =>
          ([Request (CallGetConfigFile req); Println [VStr "%+v\n"; VFile cfg]],
           Return tt)
      end.
Proof.
  unfold getConfig. cbv zeta.
  destruct ((serviceUUID f =? "")%string || (fileID f =? "")%string)%bool;
    run; [reflexivity|].
  destruct (GetConfigFile cli _) as [cfg|err]; run; reflexivity.
Qed.

Lemma checkServiceInit_run (cli : ManageClient) (f : Flags) :
  checkServiceInit cli f =
    let req :=
      CatalogCheckServiceInitRequest.mk (serviceType f) (commonRequest f)
        (admin f) (adminPasswd f) in
    ([Request (CallCheckServiceInit req);
      Println match CatalogCheckServiceInit cli 0 req with
              | Err err => [VStr "check service init error"; VErr err]
              | Ok true => [VStr "service initialized"]
              | Ok false => [VStr "service is initializing"]
              end], Return tt).
Proof.
  unfold checkServiceInit. cbv zeta. run.
  destruct (CatalogCheckServiceInit cli 0 _) as [[|]|err]; reflexivity.
Qed.

Lemma events_memberReport (members : list ServiceMember.t) :
  forEach members (fun member =>
    emit (Printf "\t%+v\n" [VMember member]) ;;
    forEach (ServiceMember.Configs member) (fun cfg =>
      emit (Printf "\t\t%+v\n" [VConfig cfg]))) =
  (flat_map memberReport members, Return tt).
Proof.
  induction members as [|member rest IH]; [reflexivity|].
  cbn [forEach flat_map]. rewrite IH, events_forEach_emit. run. reflexivity.
Qed.

(** The list-members operation of the switch. *)
Lemma listMembers_run (cli : ManageClient) (f : Flags) :
  (members <- listServiceMembers cli f ;;
   emit (Printf "List %d members:\n" [VInt (Z.of_nat (List.length members))]) ;;
   forEach members (fun member =>
     emit (Printf "\t%+v\n" [VMember member]) ;;
     forEach (ServiceMember.Configs member) (fun cfg =>
       emit (Printf "\t\t%+v\n" [VConfig cfg])))) =
    match ListServiceMember cli (ListServiceMemberRequest.mk (commonRequest f)) with
    | Err err =>
        ([listCall f; Println [VStr "ListServiceMember error"; VErr err]], Exit (-1))
    | Ok members => (listCall f :: membersReport members, Return tt)
    end.
Proof.
  unfold listServiceMembers. cbv zeta. unfold call at 1. rewrite bind_Return.
  cbn [events completion fst snd app].
  destruct (ListServiceMember cli _) as [members|err].
  - cbn [ret events completion fst snd]. rewrite bind_Return, events_memberReport.
    run. reflexivity.
  - run. reflexivity.
Qed.

(** ** Properties of the dispatch *)

Lemma dispatch_list Wait Retry MongoDB PostgreSQL fuel cli f :
  op f = opList ->
  dispatch Wait Retry MongoDB PostgreSQL fuel cli f = listServices cli f.
Proof. intros H. unfold dispatch. rewrite H. reflexivity. Qed.

Lemma dispatch_unknown Wait Retry MongoDB PostgreSQL fuel cli f :
  knownOperation (op f) = false ->
  dispatch Wait Retry MongoDB PostgreSQL fuel cli f =
    ([invalidOperationMessage], Exit (-1)).
Proof.
  unfold knownOperation. intros H.
  repeat (apply orb_false_elim in H; destruct H as [H ?]).
  unfold dispatch.
  repeat match goal with E : (_ =? _)%string = false |- _ => rewrite E; clear E end.
  run. reflexivity.
Qed.

Lemma dispatch_invalid_type Wait Retry MongoDB PostgreSQL fuel cli f :
  op f = opCreate -> serviceType f <> MongoDB -> serviceType f <> PostgreSQL ->
  dispatch Wait Retry MongoDB PostgreSQL fuel cli f =
    ([invalidServiceTypeMessage MongoDB PostgreSQL], Exit (-1)).
Proof.
  intros H HM HP. unfold dispatch. rewrite H. cbn [String.eqb].
  change (opCreate =? opCreate)%string with true. cbv iota.
  apply String.eqb_neq in HM, HP. rewrite HM, HP. run. reflexivity.
Qed.

(** Case analysis on the checks of [main], the region lookup and the
    loading of the TLS files. *)
Ltac main_cases :=
  rewrite ?main_run; unfold connectAndDispatch;
  repeat match goal with
    | |- context [if ?b then _ else _] =>
        lazymatch b with
        | context [if _ then _ else _] => fail
        | _ => destruct b eqn:?
        end
    | |- context [match GetLocalEc2Region ?w with _ => _ end] =>
        destruct (GetLocalEc2Region w) eqn:?
    | |- context [match GenClientTLSConfig ?w ?a ?b ?c with _ => _ end] =>
        destruct (GenClientTLSConfig w a b c) eqn:?
    end.

Lemma rejected_run {A} (t : list Event) :
  forallb (fun e => negb (isRequest e)) t = true ->
  rejectedBeforeAnyCall (A:=A) (t, Exit (-1)).
Proof.
  intros H. split.
  - exists 255. split; [reflexivity | discriminate].
  - cbn [events fst]. apply Forall_forall. intros e He.
    rewrite forallb_forall in H. apply H in He.
    destruct (isRequest e); [discriminate | reflexivity].
Qed.

Lemma rejected_after {A} (e : Event) (p : Prog A) :
  isRequest e = false -> rejectedBeforeAnyCall p ->
  rejectedBeforeAnyCall (after e p).
Proof.
  intros He [S F]. split; [exact S|]. constructor; assumption.
Qed.

(** X1: every operation but list-services needs the service name: with an
    empty [-service] the run of [main] is the one print of the cause and the
    exit with -1, before the region lookup, the TLS loading and any request;
    this holds for get-config too, whatever its uuid and file id are.  The
    operation list-services does not read the service name. *)
Theorem X1_service_name_required :
  forall Wait Retry MongoDB PostgreSQL fuel w f,
    (op f <> opList -> service f = "" ->
     main Wait Retry MongoDB PostgreSQL fuel w f =
       ([serviceNameMessage], Exit (-1))) /\
    (op f = opList -> forall name,
     main Wait Retry MongoDB PostgreSQL fuel w (withService name f) =
       main Wait Retry MongoDB PostgreSQL fuel w f).
Proof.
  intros Wait Retry MongoDB PostgreSQL fuel w f. split.
  - intros Ho Hs. rewrite main_run.
    apply String.eqb_neq in Ho. rewrite Ho, Hs. reflexivity.
  - intros Ho name. rewrite !main_run. unfold connectAndDispatch.
    cbn [op service tlsEnabled caFile certFile keyFile region withService setRegion].
    rewrite Ho. change (negb (opList =? opList)%string) with false.
    cbn [andb].
    destruct (GetLocalEc2Region w) as [v|err],
      (GenClientTLSConfig w (caFile f) (certFile f) (keyFile f)) as [conf|err'];
      repeat rewrite dispatch_list by exact Ho; reflexivity.
Qed.

Lemma service_check_passes (f : Flags) :
  op f = opList \/ service f <> "" ->
  (negb (op f =? opList)%string && (service f =? "")%string)%bool = false.
Proof.
  intros [H|H].
  - rewrite H. reflexivity.
  - apply String.eqb_neq in H. rewrite H. apply andb_false_r.
Qed.

Lemma tls_check_passes (f : Flags) :
  tlsEnabled f = false \/ tlsPathsSet f = 3%nat ->
  (tlsEnabled f &&
   ((caFile f =? "")%string || (certFile f =? "")%string
    || (keyFile f =? "")%string))%bool = false.
Proof.
  intros H. rewrite (proj1 (tlsPathsSet_check f)).
  destruct H as [-> | ->]; [reflexivity | apply andb_false_r].
Qed.

Ltac flag_fields :=
  cbn [op serviceType cluster serverURL region service replicas volSizeGB
       cpuUnits reserveMemMB admin adminPasswd tlsEnabled caFile certFile
       keyFile replUser replUserPasswd serviceUUID fileID
       setRegion setServerURL setServiceType prepared] in *.

(** X2: an operation outside the seven of the switch never reaches the
    management service: the run of [main] holds no request and ends with
    the nonzero status 255; past the checks, with the region given and TLS
    off, it is the one print of the invalid operation. *)
Theorem X2_unknown_operation_rejected :
  forall Wait Retry MongoDB PostgreSQL fuel w f,
    knownOperation (op f) = false ->
    let p := main Wait Retry MongoDB PostgreSQL fuel w f in
    rejectedBeforeAnyCall p /\
    (service f <> "" -> tlsEnabled f = false -> region f <> "" ->
     p = ([invalidOperationMessage], Exit (-1))).
Proof.
  intros Wait Retry MongoDB PostgreSQL fuel w f H p. subst p. split.
  - main_cases; rewrite ?dispatch_unknown by exact H; unfold after;
      cbn [events completion fst snd]; apply rejected_run; reflexivity.
  - intros Hs Ht Hr. rewrite main_run.
    rewrite service_check_passes, tls_check_passes by tauto.
    apply String.eqb_neq in Hr. rewrite Hr. unfold connectAndDispatch.
    rewrite Ht. apply dispatch_unknown. exact H.
Qed.

Lemma X2_unknown_operation_rejected_witness :
  let w := stubWorld (stubClient None (readyAfter 0) (Ok []) None) in
  let f := flagsFor "drop-service" "" 3 0 in
  rejectedBeforeAnyCall (main 120 3 "mongodb" "postgresql" 40 w f) /\
  main 120 3 "mongodb" "postgresql" 40 w f = ([invalidOperationMessage], Exit (-1)).
Proof.
  intros w f.
  destruct (X2_unknown_operation_rejected 120 3 "mongodb" "postgresql" 40 w f eq_refl)
    as (R & E).
  split; [exact R|]. apply E; [discriminate | reflexivity | discriminate].
Defined.

(** X3: the operation create-service with a service type that, in lower
    case, is neither the MongoDB nor the PostgreSQL one sends no request:
    the run of [main] ends with the nonzero status 255 and, past the checks
    with the region given and TLS off, is the one print of the invalid
    service type. *)
Theorem X3_invalid_service_type_rejected :
  forall Wait Retry MongoDB PostgreSQL fuel w f,
    op f = opCreate ->
    ToLower (serviceType f) <> MongoDB ->
    ToLower (serviceType f) <> PostgreSQL ->
    let p := main Wait Retry MongoDB PostgreSQL fuel w f in
    rejectedBeforeAnyCall p /\
    (service f <> "" -> tlsEnabled f = false -> region f <> "" ->
     p = ([invalidServiceTypeMessage MongoDB PostgreSQL], Exit (-1))).
Proof.
  intros Wait Retry MongoDB PostgreSQL fuel w f H HM HP p. subst p. split.
  - main_cases;
      rewrite ?dispatch_invalid_type by (try exact H; try exact HM; exact HP);
      unfold after; cbn [events completion fst snd]; apply rejected_run; reflexivity.
  - intros Hs Ht Hr. rewrite main_run.
    rewrite service_check_passes, tls_check_passes by tauto.
    apply String.eqb_neq in Hr. rewrite Hr. unfold connectAndDispatch.
    rewrite Ht. apply dispatch_invalid_type; assumption.
Qed.

Lemma X3_invalid_service_type_rejected_witness :
  let w := stubWorld (stubClient None (readyAfter 0) (Ok []) None) in
  let f := flagsFor opCreate "Redis" 3 20 in
  rejectedBeforeAnyCall (main 120 3 "mongodb" "postgresql" 40 w f) /\
  main 120 3 "mongodb" "postgresql" 40 w f =
    ([invalidServiceTypeMessage "mongodb" "postgresql"], Exit (-1)).
Proof.
  intros w f.
  destruct (X3_invalid_service_type_rejected 120 3 "mongodb" "postgresql" 40 w f)
    as (R & E); [reflexivity | discriminate | discriminate |].
  split; [exact R|]. apply E; [discriminate | reflexivity | discriminate].
Defined.

Lemma lowerAscii_idempotent (c : ascii) : lowerAscii (lowerAscii c) = lowerAscii c.
Proof.
  destruct c as [[|] [|] [|] [|] [|] [|] [|] [|]]; reflexivity.
Qed.

Lemma ToLower_idempotent (s : string) : ToLower (ToLower s) = ToLower s.
Proof.
  induction s as [|c s IH]; simpl; [reflexivity|].
  rewrite lowerAscii_idempotent, IH. reflexivity.
Qed.

(** X4: [main] reads the service type in lower case only: two spellings of
    the [-service-type] flag with the same lower case give the same run, so
    "MongoDB" creates what "mongodb" creates, and the request of
    check-service-init carries the lower-case spelling. *)
Theorem X4_service_type_is_case_insensitive :
  forall Wait Retry MongoDB PostgreSQL fuel w f spelling,
    ToLower spelling = ToLower (serviceType f) ->
    main Wait Retry MongoDB PostgreSQL fuel w (setServiceType spelling f) =
      main Wait Retry MongoDB PostgreSQL fuel w f.
Proof.
  intros Wait Retry MongoDB PostgreSQL fuel w f spelling H.
  rewrite !main_run. unfold connectAndDispatch, prepared, resolvedURL.
  cbn [op serviceType cluster serverURL region service replicas volSizeGB
       cpuUnits reserveMemMB admin adminPasswd tlsEnabled caFile certFile
       keyFile replUser replUserPasswd serviceUUID fileID
       setRegion setServerURL setServiceType].
  rewrite H. reflexivity.
Qed.

Lemma X4_service_type_is_case_insensitive_witness :
  let w := stubWorld (stubClient None (readyAfter 1) (Ok []) None) in
  main 120 3 "mongodb" "postgresql" 40 w
    (setServiceType "MongoDB" (flagsFor opCreate "mongodb" 3 20)) =
  main 120 3 "mongodb" "postgresql" 40 w (flagsFor opCreate "mongodb" 3 20).
Proof.
  intros w.
  apply (X4_service_type_is_case_insensitive 120 3 "mongodb" "postgresql" 40 w
           (flagsFor opCreate "mongodb" 3 20) "MongoDB").
  reflexivity.
Defined.

(** X5: with an empty [-region], past the checks of the service name and
    of the TLS paths, [main] looks the region of the local instance up.
    When the lookup fails the run is the lookup, the print "please specify
    the region" and the exit with -1.  When it yields a region, the run is
    the lookup followed by the run of [main] with that region as the
    [-region] flag. *)
Theorem X5_region_is_looked_up_when_empty :
  forall Wait Retry MongoDB PostgreSQL fuel w f,
    op f = opList \/ service f <> "" ->
    tlsEnabled f = false \/ tlsPathsSet f = 3%nat ->
    region f = "" ->
    let p := main Wait Retry MongoDB PostgreSQL fuel w f in
    (forall err, GetLocalEc2Region w = Err err ->
                 p = ([LocalRegion; regionMessage], Exit (-1))) /\
    (forall v, GetLocalEc2Region w = Ok v -> v <> "" ->
               p = after LocalRegion
                     (main Wait Retry MongoDB PostgreSQL fuel w (setRegion v f))).
Proof.
  intros Wait Retry MongoDB PostgreSQL fuel w f Hs Ht Hr p. subst p.
  rewrite main_run. rewrite service_check_passes, tls_check_passes by assumption.
  rewrite Hr. change ("" =? "")%string with true. cbv iota. split.
  - intros err ->. reflexivity.
  - intros v -> Hv. rewrite main_run.
    assert (op (setRegion v f) = opList \/ service (setRegion v f) <> "") as Hs'
      by exact Hs.
    assert (tlsEnabled (setRegion v f) = false \/ tlsPathsSet (setRegion v f) = 3%nat)
      as Ht' by exact Ht.
    rewrite (service_check_passes _ Hs'), (tls_check_passes _ Ht').
    cbn [region setRegion]. apply String.eqb_neq in Hv. rewrite Hv. reflexivity.
Qed.

Lemma X5_region_is_looked_up_when_empty_witness :
  let cli := stubClient None (readyAfter 0) (Ok twoMembers) None in
  let f := setRegion "" (flagsFor opGet "" 3 0) in
  main 120 3 "mongodb" "postgresql" 40 (stubWorldWith (Err "no metadata") (Err "") cli) f =
    ([LocalRegion; regionMessage], Exit (-1)) /\
  main 120 3 "mongodb" "postgresql" 40 (stubWorld cli) f =
    after LocalRegion
      (main 120 3 "mongodb" "postgresql" 40 (stubWorld cli) (setRegion "us-west-1" f)).
Proof.
  intros cli f. split.
  - refine (proj1 (X5_region_is_looked_up_when_empty 120 3 "mongodb" "postgresql" 40
                     (stubWorldWith (Err "no metadata") (Err "") cli) f _ _ _)
              "no metadata" _).
    + right. discriminate.
    + left. reflexivity.
    + reflexivity.
    + reflexivity.
  - refine (proj2 (X5_region_is_looked_up_when_empty 120 3 "mongodb" "postgresql" 40
                     (stubWorld cli) f _ _ _) "us-west-1" _ _).
    + right. discriminate.
    + left. reflexivity.
    + reflexivity.
    + reflexivity.
    + discriminate.
Defined.

(** X6: with TLS enabled, a failure to load the ca, cert and key files
    ends the run before any request: [main] ends with the nonzero status
    255 and has sent nothing to the management service. *)
Theorem X6_tls_load_failure_is_fatal :
  forall Wait Retry MongoDB PostgreSQL fuel w f err,
    tlsEnabled f = true ->
    GenClientTLSConfig w (caFile f) (certFile f) (keyFile f) = Err err ->
    let p := main Wait Retry MongoDB PostgreSQL fuel w f in
    rejectedBeforeAnyCall p /\
    (service f <> "" -> tlsPathsSet f = 3%nat -> region f <> "" ->
     p = ([LoadTLS (caFile f) (certFile f) (keyFile f);
           Printf "GenClientTLSConfig error %s, ca file %s, cert file %s, key file %s\n"
             [VErr err; VStr (caFile f); VStr (certFile f); VStr (keyFile f)]],
          Exit (-1))).
Proof.
  intros Wait Retry MongoDB PostgreSQL fuel w f err HT HL p. subst p. split.
  - main_cases; flag_fields; try congruence; unfold after;
      cbn [events completion fst snd]; apply rejected_run; reflexivity.
  - intros Hs Hp Hr. rewrite main_run.
    rewrite service_check_passes, tls_check_passes by tauto.
    apply String.eqb_neq in Hr. rewrite Hr. unfold connectAndDispatch.
    rewrite HT, HL. reflexivity.
Qed.

Lemma X6_tls_load_failure_is_fatal_witness :
  let cli := stubClient None (readyAfter 0) (Ok twoMembers) None in
  let w := stubWorldWith (Ok "us-west-1") (Err "no such file") cli in
  let f := withTLS true "ca.pem" "cert.pem" "key.pem" (flagsFor opDelete "" 3 0) in
  rejectedBeforeAnyCall (main 120 3 "mongodb" "postgresql" 40 w f) /\
  main 120 3 "mongodb" "postgresql" 40 w f =
    ([LoadTLS "ca.pem" "cert.pem" "key.pem";
      Printf "GenClientTLSConfig error %s, ca file %s, cert file %s, key file %s\n"
        [VErr "no such file"; VStr "ca.pem"; VStr "cert.pem"; VStr "key.pem"]],
     Exit (-1)).
Proof.
  intros cli w f.
  destruct (X6_tls_load_failure_is_fatal 120 3 "mongodb" "postgresql" 40 w f
              "no such file" eq_refl eq_refl) as (R & E).
  split; [exact R|]. apply E; [discriminate | reflexivity | discriminate].
Defined.

(** ** Properties of the single-call handlers *)

(** X7: an error of the adapter call is fatal in [listServices],
    [getService], [getConfig] and in both creation handlers: the run is the
    request, the print of the error and the exit with -1; nothing is
    retried. *)
Theorem X7_adapter_errors_are_fatal :
  forall Wait Retry MongoDB fuel cli f err,
    (ListService cli (ListServiceRequest.mk (region f) (cluster f) "") = Err err ->
     listServices cli f =
       ([Request (CallListService (ListServiceRequest.mk (region f) (cluster f) ""));
         Println [VStr "ListService error"; VErr err]], Exit (-1))) /\
    (GetServiceAttr cli (commonRequest f) = Err err ->
     getService cli f =
       ([Request (CallGetServiceAttr (commonRequest f));
         Println [VStr "GetServiceAttr error"; VErr err]], Exit (-1))) /\
    (serviceUUID f <> "" -> fileID f <> "" ->
     GetConfigFile cli
       (GetConfigFileRequest.mk (region f) (cluster f) (serviceUUID f) (fileID f)) =
       Err err ->
     getConfig cli f =
       ([Request (CallGetConfigFile
                    (GetConfigFileRequest.mk (region f) (cluster f)
                       (serviceUUID f) (fileID f)));
         Println [VStr "GetConfigFile error"; VErr err]], Exit (-1))) /\
    (replicas f <> 0 -> volSizeGB f <> 0 ->
     CatalogCreateMongoDBService cli (mongoDBRequest f) = Some err ->
     createMongoDBService Wait Retry MongoDB fuel cli f =
       ([Request (CallCreateMongoDB (mongoDBRequest f));
         Println [VStr "create catalog mongodb service error"; VErr err]], Exit (-1))) /\
    (replicas f <> 0 -> volSizeGB f <> 0 ->
     CatalogCreatePostgreSQLService cli (postgreSQLRequest f) = Some err ->
     createPostgreSQLService cli f =
       ([Request (CallCreatePostgreSQL (postgreSQLRequest f));
         Println [VStr "create postgresql service error"; VErr err]], Exit (-1))).
Proof.
  intros Wait Retry MongoDB fuel cli f err. repeat split.
  - intros H. rewrite listServices_run. cbv zeta. rewrite H. reflexivity.
  - intros H. rewrite getService_run, H. reflexivity.
  - intros Hu Hf H. rewrite getConfig_run. cbv zeta.
    apply String.eqb_neq in Hu, Hf. rewrite Hu, Hf, H. reflexivity.
  - intros H1 H2 H. rewrite createMongoDBService_valid, H by assumption. reflexivity.
  - intros H1 H2 H. rewrite createPostgreSQLService_valid, H by assumption.
    reflexivity.
Qed.

(** X8: when the adapter yields the services, [listServices] prints the
    line with their number and then one line for each service, in the order
    of the answer, and returns; the number printed is the number of the
    lines that follow, and an empty answer gives the count line alone. *)
Theorem X8_services_are_listed_in_order :
  forall cli f services,
    ListService cli (ListServiceRequest.mk (region f) (cluster f) "") = Ok services ->
    listServices cli f =
      (Request (CallListService (ListServiceRequest.mk (region f) (cluster f) ""))
       :: Printf "List %d services:\n" [VInt (Z.of_nat (List.length services))]
       :: map (fun svc => Printf "\t%+v\n" [VAttr svc]) services,
       Return tt) /\
    List.length (events (listServices cli f)) = (2 + List.length services)%nat /\
    (services = [] -> List.length (events (listServices cli f)) = 2%nat).
Proof.
  intros cli f services H. rewrite listServices_run. cbv zeta. rewrite H.
  split; [reflexivity|]. split.
  - cbn [events fst servicesReport List.length]. rewrite length_map. reflexivity.
  - intros ->. reflexivity.
Qed.

Lemma X8_services_are_listed_in_order_witness :
  let cli :=
    mkManageClient (fun _ => None) (fun _ => None) (fun _ _ => Ok true)
      (fun _ => Ok ["svcA"; "svcB"]) (fun _ => Ok "attributes") (fun _ => Ok [])
      (fun _ => None) (fun _ => Ok "content") in
  let f := flagsFor opList "" 3 0 in
  events (listServices cli f) =
    [Request (CallListService (ListServiceRequest.mk "us-west-1" "default" ""));
     Printf "List %d services:\n" [VInt 2];
     Printf "\t%+v\n" [VAttr "svcA"]; Printf "\t%+v\n" [VAttr "svcB"]].
Proof.
  intros cli f.
  exact (f_equal fst
           (proj1 (X8_services_are_listed_in_order cli f ["svcA"; "svcB"] eq_refl))).
Defined.

(** X9: the operation list-members, past the checks with the region given
    and TLS off, runs against the client made for the resolved server url
    (the default url of the cluster when [-server-url] is empty, the
    formatted [-server-url] otherwise): an error of the call is fatal, and
    the members are printed after the line with their number, each member
    followed by its configs, in the order of the answer. *)
Theorem X9_members_are_listed_with_their_configs :
  forall Wait Retry MongoDB PostgreSQL fuel w f,
    op f = opListMembers -> service f <> "" -> tlsEnabled f = false ->
    region f <> "" ->
    let url :=
      if (serverURL f =? "")%string
      then GetDefaultManageServiceURL w (cluster f) false
      else FormatManageServiceURL w (serverURL f) false in
    let cli := NewManageClient w url None in
    main Wait Retry MongoDB PostgreSQL fuel w f =
      match ListServiceMember cli (ListServiceMemberRequest.mk (commonRequest f)) with
      | Err err =>
          ([listCall f; Println [VStr "ListServiceMember error"; VErr err]], Exit (-1))
      | Ok members =>
          (listCall f
           :: Printf "List %d members:\n" [VInt (Z.of_nat (List.length members))]
           :: flat_map
                (fun member =>
                   Printf "\t%+v\n" [VMember member]
                   :: map (fun cfg => Printf "\t\t%+v\n" [VConfig cfg])
                        (ServiceMember.Configs member))
                members,
           Return tt)
      end.
Proof.
  intros Wait Retry MongoDB PostgreSQL fuel w f Ho Hs Ht Hr url cli.
  rewrite main_run. rewrite service_check_passes, tls_check_passes by tauto.
  apply String.eqb_neq in Hr. rewrite Hr. unfold connectAndDispatch. rewrite Ht.
  unfold dispatch. flag_fields. rewrite Ho.
  change (opListMembers =? opCreate)%string with false.
  change (opListMembers =? opCheckInit)%string with false.
  change (opListMembers =? opDelete)%string with false.
  change (opListMembers =? opList)%string with false.
  change (opListMembers =? opGet)%string with false.
  change (opListMembers =? opListMembers)%string with true.
  cbv iota. rewrite listMembers_run. unfold resolvedURL. rewrite Ht.
  reflexivity.
Qed.

Lemma X9_members_are_listed_with_their_configs_witness :
  let members :=
    [ServiceMember.mk "vol-1" ["conf-a"; "conf-b"]; ServiceMember.mk "vol-2" []] in
  let w := stubWorld (stubClient None (readyAfter 0) (Ok members) None) in
  let f := flagsFor opListMembers "" 3 0 in
  main 120 3 "mongodb" "postgresql" 40 w f =
    ([listCall f;
      Printf "List %d members:\n" [VInt 2];
      Printf "\t%+v\n" [VMember (ServiceMember.mk "vol-1" ["conf-a"; "conf-b"])];
      Printf "\t\t%+v\n" [VConfig "conf-a"];
      Printf "\t\t%+v\n" [VConfig "conf-b"];
      Printf "\t%+v\n" [VMember (ServiceMember.mk "vol-2" [])]],
     Return tt).
Proof.
  intros members w f.
  refine (X9_members_are_listed_with_their_configs 120 3 "mongodb" "postgresql" 40
            w f _ _ _ _).
  - reflexivity.
  - discriminate.
  - reflexivity.
  - discriminate.
Defined.

(** X10: [getConfig] needs both the service uuid and the file id: when
    one of them is empty the run is the print of the cause and the exit
    with -1, and no request is sent.  With both given it sends one request
    with the region, the cluster, the uuid and the file id of the flags,
    and on success prints the file after the text of the format and
    returns. *)
Theorem X10_get_config_needs_uuid_and_file_id :
  forall cli f,
    (serviceUUID f = "" \/ fileID f = "" ->
     getConfig cli f = ([configMessage], Exit (-1))) /\
    (serviceUUID f <> "" -> fileID f <> "" ->
     forall cfg,
       GetConfigFile cli
         (GetConfigFileRequest.mk (region f) (cluster f) (serviceUUID f) (fileID f)) =
         Ok cfg ->
       getConfig cli f =
         ([Request (CallGetConfigFile
                      (GetConfigFileRequest.mk (region f) (cluster f)
                         (serviceUUID f) (fileID f)));
           Println [VStr "%+v\n"; VFile cfg]], Return tt)).
Proof.
  intros cli f. split.
  - intros H. rewrite getConfig_run. cbv zeta.
    replace ((serviceUUID f =? "")%string || (fileID f =? "")%string)%bool with true;
      [reflexivity|].
    symmetry. apply orb_true_iff. rewrite !String.eqb_eq. exact H.
  - intros Hu Hf cfg H. rewrite getConfig_run. cbv zeta.
    apply String.eqb_neq in Hu, Hf. rewrite Hu, Hf, H. reflexivity.
Qed.

Lemma X10_get_config_needs_uuid_and_file_id_witness :
  let cli := stubClient None (readyAfter 0) (Ok []) None in
  getConfig cli (withServiceUUID "uuid-1" "" (flagsFor opGetConfig "" 3 0)) =
    ([configMessage], Exit (-1)) /\
  getConfig cli (withServiceUUID "uuid-1" "file-1" (flagsFor opGetConfig "" 3 0)) =
    ([Request (CallGetConfigFile
                 (GetConfigFileRequest.mk "us-west-1" "default" "uuid-1" "file-1"));
      Println [VStr "%+v\n"; VFile "content"]], Return tt).
Proof.
  intros cli. split.
  - apply (proj1 (X10_get_config_needs_uuid_and_file_id cli
                    (withServiceUUID "uuid-1" "" (flagsFor opGetConfig "" 3 0)))).
    right. reflexivity.
  - apply (proj2 (X10_get_config_needs_uuid_and_file_id cli
                    (withServiceUUID "uuid-1" "file-1" (flagsFor opGetConfig "" 3 0)))).
    + discriminate.
    + discriminate.
    + reflexivity.
Defined.

(** ** The ways [main] ends *)

Lemma ends_bind {A B} (m : Prog A) (k : A -> Prog B) :
  endsUniformly (completion m) -> (forall a, endsUniformly (completion (k a))) ->
  endsUniformly (completion (bind m k)).
Proof.
  intros Hm Hk. rewrite completion_bind.
  destruct (completion m) as [a| |]; [apply Hk | exact Hm | exact Hm].
Qed.

Lemma ends_forEach {A} (l : list A) (body : A -> Prog unit) :
  (forall x, endsUniformly (completion (body x))) ->
  endsUniformly (completion (forEach l body)).
Proof.
  intros H. induction l as [|x l IH]; simpl; [exact I|].
  apply ends_bind; [apply H | intros _; exact IH].
Qed.

Ltac ends :=
  repeat match goal with
    | |- endsUniformly (completion (bind _ _)) => apply ends_bind; [|intros ?]
    | |- endsUniformly (completion (forEach _ _)) => apply ends_forEach; intros ?
    | |- endsUniformly (completion (when ?b _)) => unfold when
    | |- endsUniformly (completion (if ?b then _ else _)) => destruct b
    | |- endsUniformly (completion (match ?x with _ => _ end)) => destruct x
    | |- endsUniformly (completion (emit _)) => exact I
    | |- endsUniformly (completion (call _ _)) => exact I
    | |- endsUniformly (completion (local _ _)) => exact I
    | |- endsUniformly (completion (ret _)) => exact I
    | |- endsUniformly (completion (os_Exit _)) => reflexivity
    end.

(** The handlers without a loop end for every fuel. *)
Lemma handlers_end cli f :
  endsUniformly (completion (createPostgreSQLService cli f)) /\
  endsUniformly (completion (checkServiceInit cli f)) /\
  endsUniformly (completion (deleteService cli f)) /\
  endsUniformly (completion (listServices cli f)) /\
  endsUniformly (completion (getService cli f)) /\
  endsUniformly (completion (listServiceMembers cli f)) /\
  endsUniformly (completion (getConfig cli f)).
Proof.
  unfold createPostgreSQLService, checkServiceInit, deleteService, listServices,
    getService, listServiceMembers, getConfig.
  cbv zeta. repeat split; ends.
Qed.

Lemma createMongoDBService_ends Wait Retry MongoDB fuel cli f :
  0 < Retry -> Wait + Retry <= 2 ^ 63 -> (Z.to_nat Wait <= fuel)%nat ->
  endsUniformly (completion (createMongoDBService Wait Retry MongoDB fuel cli f)).
Proof.
  intros HR HO Hf. unfold createMongoDBService. cbv zeta.
  apply ends_bind; [ends | intros _].
  apply ends_bind; [ends | intros ?].
  apply ends_bind; [ends | intros _].
  apply ends_bind; [ends | intros _].
  apply ends_bind; [|intros ?; ends].
  destruct (wait_total Wait Retry cli (mongoDBInitRequest MongoDB f) HR HO
              fuel 0%nat 0) as [-> | ->]; try lia; exact I.
Qed.

Lemma endsUniformly_cases (c : Completion unit) :
  endsUniformly c -> c = Return tt \/ c = Exit (-1).
Proof.
  destruct c as [[]|code|]; simpl.
  - intros _. left. reflexivity.
  - intros ->. right. reflexivity.
  - contradiction.
Qed.

Lemma dispatch_ends Wait Retry MongoDB PostgreSQL fuel cli f :
  op f <> opCreate \/
  (0 < Retry /\ Wait + Retry <= 2 ^ 63 /\ (Z.to_nat Wait <= fuel)%nat) ->
  endsUniformly (completion (dispatch Wait Retry MongoDB PostgreSQL fuel cli f)).
Proof.
  intros H. unfold dispatch.
  destruct (op f =? opCreate)%string eqn:E.
  - destruct H as [H | (HR & HO & Hf)];
      [apply String.eqb_eq in E; contradiction|].
    destruct (serviceType f =? MongoDB)%string;
      [apply createMongoDBService_ends; assumption|].
    destruct (serviceType f =? PostgreSQL)%string;
      [apply handlers_end | ends].
  - repeat match goal with
      | |- endsUniformly (completion (if ?b then _ else _)) => destruct b
      end; try apply handlers_end; ends; apply handlers_end.
Qed.

(** X11: past [flag.Parse], from the check of the service name on, [main]
    has one failure code.  For every operation but create-service, and for
    create-service when the step of the wait loop is positive (with the loop
    counter inside int64 and the loop given its [Wait] iterations), the run
    of the parsed flags ends: it returns, status 0, or calls [os.Exit(-1)],
    status 255.  The exit of [flag.Parse] itself on a malformed flag is not
    part of this run. *)
Theorem X11_main_returns_or_exits_with_minus_one :
  forall Wait Retry MongoDB PostgreSQL fuel w f,
    op f <> opCreate \/
    (0 < Retry /\ Wait + Retry <= 2 ^ 63 /\ (Z.to_nat Wait <= fuel)%nat) ->
    let c := completion (main Wait Retry MongoDB PostgreSQL fuel w f) in
    (c = Return tt \/ c = Exit (-1)) /\
    (exitStatus c = Some 0 \/ exitStatus c = Some 255).
Proof.
  intros Wait Retry MongoDB PostgreSQL fuel w f H c.
  assert (endsUniformly c) as E.
  { subst c. main_cases; unfold after; cbn [completion snd];
      try reflexivity; apply dispatch_ends; exact H. }
  apply endsUniformly_cases in E. split; [exact E|].
  destruct E as [-> | ->]; [left | right]; reflexivity.
Qed.

Lemma X11_main_returns_or_exits_with_minus_one_witness :
  let cli := stubClient None (fun _ => Err "connection refused") (Ok []) None in
  let c := completion (main 120 3 "mongodb" "postgresql" 120 (stubWorld cli)
                         (flagsFor opCreate "mongodb" 3 20)) in
  (c = Return tt \/ c = Exit (-1)) /\
  (exitStatus c = Some 0 \/ exitStatus c = Some 255).
Proof.
  intros cli.
  apply (X11_main_returns_or_exits_with_minus_one 120 3 "mongodb" "postgresql" 120
           (stubWorld cli) (flagsFor opCreate "mongodb" 3 20)).
  right. split; [lia | split; [lia | vm_compute; lia]].
Defined.

(** ** The cost of the wait loop *)

Lemma sleptSeconds_app (t t' : list Event) :
  sleptSeconds (t ++ t') = sleptSeconds t + sleptSeconds t'.
Proof.
  induction t as [|e t IH]; simpl; [reflexivity|].
  destruct e; rewrite ?IH; lia.
Qed.

(** The loop sleeps ten seconds after each check but the one that answers
    "initialized". *)
Lemma wait_sleeps Wait Retry cli initReq : forall fuel tick sec,
  let p := waitInitialized Wait Retry fuel cli initReq tick sec in
  sleptSeconds (events p) =
    10 * Z.of_nat (ticks (events p)) -
    match completion p with Return true => 10 | _ => 0 end.
Proof.
  induction fuel as [|fuel IH]; intros tick sec p; subst p.
  - simpl. destruct (sec <? Wait); reflexivity.
  - destruct (Z.lt_ge_cases sec Wait) as [H|H].
    + destruct (CatalogCheckServiceInit cli tick initReq) as [[|]|err] eqn:C.
      * rewrite wait_done by assumption. reflexivity.
      * destruct (wait_next Wait Retry cli initReq fuel tick sec H)
          as (-> & T & log & E & L); [congruence|].
        rewrite T, E. specialize (IH (S tick) (wrap64 (sec + Retry))).
        cbv zeta in IH.
        destruct L as [-> | (e & _ & ->)]; cbn [sleptSeconds app]; rewrite IH; lia.
      * destruct (wait_next Wait Retry cli initReq fuel tick sec H)
          as (-> & T & log & E & L); [congruence|].
        rewrite T, E. specialize (IH (S tick) (wrap64 (sec + Retry))).
        cbv zeta in IH.
        destruct L as [-> | (e & _ & ->)]; cbn [sleptSeconds app]; rewrite IH; lia.
    + rewrite wait_stop by assumption. reflexivity.
Qed.

Lemma wait_never_exits Wait Retry cli initReq : forall fuel tick sec code,
  completion (waitInitialized Wait Retry fuel cli initReq tick sec) <> Exit code.
Proof.
  induction fuel as [|fuel IH]; intros tick sec code.
  - simpl. destruct (sec <? Wait); discriminate.
  - destruct (Z.lt_ge_cases sec Wait) as [H|H].
    + destruct (CatalogCheckServiceInit cli tick initReq) as [[|]|err] eqn:C.
      * rewrite wait_done by assumption. discriminate.
      * destruct (wait_next Wait Retry cli initReq fuel tick sec H) as (-> & _);
          [congruence | apply IH].
      * destruct (wait_next Wait Retry cli initReq fuel tick sec H) as (-> & _);
          [congruence | apply IH].
    + rewrite wait_stop by assumption. discriminate.
Qed.

(** The checks of the loop fit the budget, whatever the adapter answers:
    each check but the first is paid by one step, and the loop that runs to
    its end has used the budget up. *)
Lemma wait_budget Wait Retry cli initReq :
  0 < Retry -> Wait + Retry <= 2 ^ 63 ->
  forall fuel tick sec,
    0 <= sec ->
    let p := waitInitialized Wait Retry fuel cli initReq tick sec in
    ((0 < ticks (events p))%nat ->
     sec + (Z.of_nat (ticks (events p)) - 1) * Retry < Wait) /\
    (completion p = Return false ->
     Wait <= sec + Z.of_nat (ticks (events p)) * Retry).
Proof.
  intros HR HO. induction fuel as [|fuel IH]; intros tick sec Hs p; subst p.
  - simpl. destruct (sec <? Wait) eqn:E; cbn [events completion fst snd].
    + split; [unfold ticks; simpl; lia | discriminate].
    + apply Z.ltb_ge in E. split; unfold ticks; simpl; lia.
  - destruct (Z.lt_ge_cases sec Wait) as [H|H].
    + destruct (CatalogCheckServiceInit cli tick initReq) as [[|]|err] eqn:C.
      * rewrite wait_done by assumption. cbn [events completion fst snd].
        split; [unfold ticks; simpl; lia | discriminate].
      * destruct (wait_next Wait Retry cli initReq fuel tick sec H)
          as (-> & -> & _); [congruence|].
        rewrite wrap64_small by lia.
        destruct (IH (S tick) (sec + Retry)) as (B1 & B2); [lia|].
        split; [intros _ | intros R; specialize (B2 R); lia].
        destruct (ticks (events (waitInitialized Wait Retry fuel cli initReq
                                   (S tick) (sec + Retry)))) as [|n]; [lia|].
        assert (0 < S n)%nat as Hp by lia. specialize (B1 Hp). lia.
      * destruct (wait_next Wait Retry cli initReq fuel tick sec H)
          as (-> & -> & _); [congruence|].
        rewrite wrap64_small by lia.
        destruct (IH (S tick) (sec + Retry)) as (B1 & B2); [lia|].
        split; [intros _ | intros R; specialize (B2 R); lia].
        destruct (ticks (events (waitInitialized Wait Retry fuel cli initReq
                                   (S tick) (sec + Retry)))) as [|n]; [lia|].
        assert (0 < S n)%nat as Hp by lia. specialize (B1 Hp). lia.
    + rewrite wait_stop by assumption. cbn [events completion fst snd].
      split; unfold ticks; simpl; lia.
Qed.

Lemma createMongoDBService_cost Wait Retry MongoDB fuel cli f :
  let p := createMongoDBService Wait Retry MongoDB fuel cli f in
  let poll := waitInitialized Wait Retry fuel cli (mongoDBInitRequest MongoDB f) 0 0 in
  (ticks (events p) = 0%nat /\ sleptSeconds (events p) = 0 /\
   exists code, completion p = Exit code) \/
  (ticks (events p) = ticks (events poll) /\
   sleptSeconds (events p) = sleptSeconds (events poll) /\
   completion p = match completion poll with
                  | Return true => Return tt
                  | Return false => Exit (-1)
                  | Exit code => Exit code
                  | OutOfFuel => OutOfFuel
                  end).
Proof.
  intros p poll. subst p.
  assert (forall t : list Event,
            ticks t = 0%nat -> sleptSeconds t = 0 ->
            ticks (events (t, Exit (A:=unit) (-1))) = 0%nat /\
            sleptSeconds (events (t, Exit (A:=unit) (-1))) = 0 /\
            exists code, completion (t, Exit (A:=unit) (-1)) = Exit code) as Stop.
  { intros t T S. repeat split; try assumption. exists (-1). reflexivity. }
  destruct (Z.eq_dec (replicas f) 0) as [H1|H1].
  { rewrite createMongoDBService_invalid by tauto. left. apply Stop; reflexivity. }
  destruct (Z.eq_dec (volSizeGB f) 0) as [H2|H2].
  { rewrite createMongoDBService_invalid by tauto. left. apply Stop; reflexivity. }
  rewrite createMongoDBService_valid by assumption.
  destruct (CatalogCreateMongoDBService cli (mongoDBRequest f)).
  { left. apply Stop; reflexivity. }
  right. fold poll. cbn [events completion fst snd].
  change (?a :: ?b :: ?l) with ([a; b] ++ l).
  rewrite !ticks_app, !sleptSeconds_app.
  destruct (completion poll) as [[|]| |]; repeat split; unfold ticks; simpl; lia.
Qed.

(** X12: the number of initialization checks of a creation is bounded by
    the budget whatever the adapter answers, errors included: with a
    positive step, n checks are made only if (n - 1) * step < budget. *)
Theorem X12_checks_fit_the_budget :
  forall Wait Retry MongoDB fuel cli f,
    0 < Retry -> Wait + Retry <= 2 ^ 63 ->
    let n := ticks (events (createMongoDBService Wait Retry MongoDB fuel cli f)) in
    n = 0%nat \/ (Z.of_nat n - 1) * Retry < Wait.
Proof.
  intros Wait Retry MongoDB fuel cli f HR HO n. subst n.
  destruct (createMongoDBService_cost Wait Retry MongoDB fuel cli f)
    as [(T & _) | (T & _)]; [left; exact T|].
  rewrite T.
  destruct (wait_budget Wait Retry cli (mongoDBInitRequest MongoDB f) HR HO
              fuel 0%nat 0) as (B & _); [lia|].
  destruct (ticks (events (waitInitialized Wait Retry fuel cli
                             (mongoDBInitRequest MongoDB f) 0 0))) as [|n];
    [left; reflexivity | right].
  assert (0 < S n)%nat as Hp by lia. specialize (B Hp). lia.
Qed.

Lemma X12_checks_fit_the_budget_witness :
  let cli := stubClient None (fun _ => Err "connection refused") (Ok []) None in
  let n := ticks (events (createMongoDBService 120 3 "mongodb" 100 cli
                            (flagsFor opCreate "mongodb" 3 20))) in
  n = 0%nat \/ (Z.of_nat n - 1) * 3 < 120.
Proof.
  intros cli.
  apply (X12_checks_fit_the_budget 120 3 "mongodb" 100 cli
           (flagsFor opCreate "mongodb" 3 20)); lia.
Defined.

(** X13: a creation sleeps ten seconds after every initialization check
    but the one that answers "initialized", whatever the step of the loop
    is: the seconds slept are ten times the checks, less ten when the run
    returns.  So a run that times out has slept 10 * n seconds, n the least
    number with budget <= n * step, before it prints "not initialized after"
    the budget: the time waited is the budget only when the step is ten. *)
Theorem X13_ten_seconds_per_check :
  forall Wait Retry MongoDB fuel cli f,
    let p := createMongoDBService Wait Retry MongoDB fuel cli f in
    sleptSeconds (events p) =
      10 * Z.of_nat (ticks (events p)) -
      match completion p with Return _ => 10 | _ => 0 end /\
    (0 < Retry -> Wait + Retry <= 2 ^ 63 ->
     replicas f <> 0 -> volSizeGB f <> 0 ->
     CatalogCreateMongoDBService cli (mongoDBRequest f) = None ->
     completion p = Exit (-1) ->
     10 * Wait <= sleptSeconds (events p) * Retry /\
     (0 < Wait -> (sleptSeconds (events p) - 10) * Retry < 10 * Wait)).
Proof.
  intros Wait Retry MongoDB fuel cli f p.
  pose proof (wait_sleeps Wait Retry cli (mongoDBInitRequest MongoDB f) fuel 0%nat 0)
    as Sw. cbv zeta in Sw.
  split.
  - subst p.
    destruct (createMongoDBService_cost Wait Retry MongoDB fuel cli f)
      as [(T & Sl & code & C) | (T & Sl & C)].
    + rewrite T, Sl, C. reflexivity.
    + rewrite T, Sl, C, Sw.
      destruct (completion (waitInitialized Wait Retry fuel cli
                              (mongoDBInitRequest MongoDB f) 0 0)) as [[|]| |];
        reflexivity.
  - intros HR HO H1 H2 HC HE. subst p.
    rewrite createMongoDBService_valid, HC in * by assumption.
    cbn [events completion fst snd] in *.
    destruct (wait_budget Wait Retry cli (mongoDBInitRequest MongoDB f) HR HO
                fuel 0%nat 0) as (B1 & B2); [lia|].
    set (poll := waitInitialized Wait Retry fuel cli (mongoDBInitRequest MongoDB f) 0 0)
      in *.
    pose proof (wait_never_exits Wait Retry cli (mongoDBInitRequest MongoDB f)
                  fuel 0%nat 0) as NE. fold poll in NE.
    destruct (completion poll) as [[|]|code|] eqn:CP; try discriminate;
      [|exfalso; exact (NE code eq_refl)].
    change (?a :: ?b :: ?l) with ([a; b] ++ l).
    rewrite !sleptSeconds_app, Sw.
    cbn [sleptSeconds]. specialize (B2 eq_refl).
    split; [nia|]. intros HW.
    destruct (ticks (events poll)) as [|n]; [lia|].
    assert (0 < S n)%nat as Hp by lia. specialize (B1 Hp). nia.
Qed.

(** A budget of 120 with a step of 3 and a service that never answers
    "initialized": forty checks, four hundred seconds slept. *)
Lemma X13_ten_seconds_per_check_witness :
  let cli := stubClient None (fun _ => Ok false) (Ok []) None in
  let p := createMongoDBService 120 3 "mongodb" 40 cli
             (flagsFor opCreate "mongodb" 3 20) in
  sleptSeconds (events p) = 400 /\
  10 * 120 <= sleptSeconds (events p) * 3 /\
  (0 < 120 -> (sleptSeconds (events p) - 10) * 3 < 10 * 120).
Proof.
  intros cli p. split; [reflexivity|].
  refine (proj2 (X13_ten_seconds_per_check 120 3 "mongodb" 40 cli
                   (flagsFor opCreate "mongodb" 3 20)) _ _ _ _ _ _).
  - lia.
  - lia.
  - vm_compute. discriminate.
  - vm_compute. discriminate.
  - reflexivity.
  - reflexivity.
Defined.

(** ** The requests of the operations without a loop *)

Lemma requestCount_app (t t' : list Event) :
  requestCount (t ++ t') = (requestCount t + requestCount t')%nat.
Proof. unfold requestCount. rewrite filter_app, length_app. reflexivity. Qed.

Lemma servicesReport_cost (services : list ServiceAttr) :
  requestCount (servicesReport services) = 0%nat /\
  sleptSeconds (servicesReport services) = 0.
Proof.
  unfold servicesReport, requestCount. cbn [filter isRequest sleptSeconds].
  induction services as [|svc rest IH]; [split; reflexivity | exact IH].
Qed.

Lemma memberReport_cost (member : ServiceMember.t) :
  requestCount (memberReport member) = 0%nat /\
  sleptSeconds (memberReport member) = 0.
Proof.
  unfold memberReport, requestCount. cbn [filter isRequest sleptSeconds].
  induction (ServiceMember.Configs member) as [|cfg rest IH];
    [split; reflexivity | exact IH].
Qed.

Lemma membersReport_cost (members : list ServiceMember.t) :
  requestCount (membersReport members) = 0%nat /\
  sleptSeconds (membersReport members) = 0.
Proof.
  unfold membersReport.
  change (?a :: flat_map memberReport members)
    with ([a] ++ flat_map memberReport members).
  rewrite requestCount_app, sleptSeconds_app.
  assert (requestCount (flat_map memberReport members) = 0%nat /\
          sleptSeconds (flat_map memberReport members) = 0) as (-> & ->).
  { induction members as [|member rest (IH1 & IH2)]; [split; reflexivity|].
    cbn [flat_map]. rewrite requestCount_app, sleptSeconds_app, IH1, IH2.
    destruct (memberReport_cost member) as (-> & ->). split; reflexivity. }
  split; reflexivity.
Qed.

Lemma singleCallCost_report (f : Flags) (c : Call) (report : list Event) :
  requestCount report = 0%nat -> sleptSeconds report = 0 ->
  singleCallCost f (Request c :: report).
Proof.
  intros R S. unfold singleCallCost.
  change (Request c :: report) with ([Request c] ++ report).
  rewrite requestCount_app, sleptSeconds_app, R, S.
  repeat split; unfold requestCount; simpl; lia.
Qed.

Lemma dispatch_cost Wait Retry MongoDB PostgreSQL fuel cli f :
  op f <> opCreate \/ serviceType f <> MongoDB ->
  singleCallCost f (events (dispatch Wait Retry MongoDB PostgreSQL fuel cli f)).
Proof.
  intros H. unfold dispatch.
  destruct (op f =? opCreate)%string eqn:E1.
  { apply String.eqb_eq in E1. destruct H as [H|H]; [contradiction|].
    apply String.eqb_neq in H. rewrite H.
    destruct (serviceType f =? PostgreSQL)%string.
    - unfold createPostgreSQLService.
      destruct ((replicas f =? 0) || (volSizeGB f =? 0))%bool; run;
        [repeat split; unfold requestCount; simpl; lia|].
      destruct (CatalogCreatePostgreSQLService cli _); run;
        apply singleCallCost_report; auto.
    - run. repeat split; unfold requestCount; simpl; lia. }
  destruct (op f =? opCheckInit)%string.
  { rewrite checkServiceInit_run. apply singleCallCost_report; auto. }
  destruct (op f =? opDelete)%string eqn:E3.
  { apply String.eqb_eq in E3. rewrite deleteService_run.
    destruct (ListServiceMember cli _); [destruct (DeleteService cli _)|];
      (split; [unfold requestCount; simpl; lia|]);
      (split; [intros; contradiction | reflexivity]). }
  destruct (op f =? opList)%string.
  { rewrite listServices_run. cbv zeta. destruct (ListService cli _).
    - apply singleCallCost_report; auto; apply servicesReport_cost.
    - apply singleCallCost_report; auto. }
  destruct (op f =? opGet)%string.
  { rewrite getService_run. destruct (GetServiceAttr cli _);
      apply singleCallCost_report; auto. }
  destruct (op f =? opListMembers)%string.
  { rewrite listMembers_run. destruct (ListServiceMember cli _).
    - apply singleCallCost_report; auto; apply membersReport_cost.
    - apply singleCallCost_report; auto. }
  destruct (op f =? opGetConfig)%string.
  { rewrite getConfig_run. cbv zeta.
    destruct ((serviceUUID f =? "")%string || (fileID f =? "")%string)%bool;
      [repeat split; unfold requestCount; simpl; lia|].
    destruct (GetConfigFile cli _); apply singleCallCost_report; auto. }
  run. repeat split; unfold requestCount; simpl; lia.
Qed.

Lemma singleCallCost_after (f : Flags) (e : Event) (t : list Event) :
  e = LocalRegion \/ (exists ca cert key, e = LoadTLS ca cert key) ->
  singleCallCost f t -> singleCallCost f (e :: t).
Proof.
  intros [-> | (ca & cert & key & ->)] H; exact H.
Qed.

(** X14: only the creation of a MongoDB service repeats a call or sleeps.
    For every other invocation the run of [main] sends at most one request
    to the management service, two for delete-service (list-members, then
    delete-service), and never sleeps; in particular check-service-init
    checks once and does not wait. *)
Theorem X14_one_request_and_no_sleep :
  forall Wait Retry MongoDB PostgreSQL fuel w f,
    op f <> opCreate \/ ToLower (serviceType f) <> MongoDB ->
    let t := events (main Wait Retry MongoDB PostgreSQL fuel w f) in
    (requestCount t <= 2)%nat /\
    (op f <> opDelete -> requestCount t <= 1)%nat /\
    sleptSeconds t = 0.
Proof.
  intros Wait Retry MongoDB PostgreSQL fuel w f H t. subst t.
  change (singleCallCost f (events (main Wait Retry MongoDB PostgreSQL fuel w f))).
  assert (forall cli g, op g = op f -> serviceType g = ToLower (serviceType f) ->
            singleCallCost f
              (events (dispatch Wait Retry MongoDB PostgreSQL fuel cli g))) as D.
  { intros cli g Ho Hs.
    destruct (dispatch_cost Wait Retry MongoDB PostgreSQL fuel cli g) as (A & B & C).
    - rewrite Ho, Hs. exact H.
    - rewrite Ho in B. repeat split; assumption. }
  main_cases; unfold after; cbn [events fst];
    repeat (apply singleCallCost_after; [solve [eauto 6]|]);
    try (apply D; reflexivity);
    repeat split; unfold requestCount; simpl; lia.
Qed.

Lemma X14_one_request_and_no_sleep_witness :
  let cli := stubClient None (fun _ => Ok false) (Ok twoMembers) None in
  let t := events (main 120 3 "mongodb" "postgresql" 40 (stubWorld cli)
                     (flagsFor opCheckInit "mongodb" 3 0)) in
  (requestCount t <= 2)%nat /\
  (opCheckInit <> opDelete -> requestCount t <= 1)%nat /\
  sleptSeconds t = 0.
Proof.
  intros cli.
  apply (X14_one_request_and_no_sleep 120 3 "mongodb" "postgresql" 40 (stubWorld cli)
           (flagsFor opCheckInit "mongodb" 3 0)).
  left. discriminate.
Defined.

(** ** The order of the lookups and the requests *)

Lemma wait_handlerEvent Wait Retry fuel cli initReq tick sec :
  Forall handlerEvent (events (waitInitialized Wait Retry fuel cli initReq tick sec)).
Proof.
  eapply Forall_impl; [|apply wait_events].
  intros [] H; try exact I; contradiction.
Qed.

Ltac handler_events :=
  repeat match goal with
    | |- Forall _ (events (bind _ _)) => apply Forall_events_bind; [|intros ?]
    | |- Forall _ (events (forEach _ _)) => apply Forall_events_forEach; intros ?
    | |- Forall _ (events (waitInitialized _ _ _ _ _ _ _)) => apply wait_handlerEvent
    | |- Forall _ (events (when ?b _)) => unfold when
    | |- Forall _ (events (if ?b then _ else _)) => destruct b
    | |- Forall _ (events (match ?x with _ => _ end)) => destruct x
    | |- Forall _ (events (emit _)) => repeat constructor
    | |- Forall _ (events (call _ _)) => repeat constructor
    | |- Forall _ (events (ret _)) => constructor
    | |- Forall _ (events (os_Exit _)) => constructor
    end.

Lemma dispatch_handlerEvents Wait Retry MongoDB PostgreSQL fuel cli f :
  Forall handlerEvent (events (dispatch Wait Retry MongoDB PostgreSQL fuel cli f)).
Proof.
  unfold dispatch, createMongoDBService, createPostgreSQLService, checkServiceInit,
    deleteService, listServices, getService, listServiceMembers, getConfig.
  cbv zeta. handler_events.
Qed.

Lemma suffix_after_request (P : Event -> Prop) (prelude body : list Event) :
  Forall (fun e => isRequest e = false) prelude -> Forall P body ->
  forall pre c post,
    prelude ++ body = pre ++ Request c :: post -> Forall P post.
Proof.
  intros Hp Hb. induction prelude as [|e prelude IH]; intros pre c post E.
  - simpl in E. subst body. apply Forall_app in Hb. destruct Hb as (_ & Hb).
    inversion Hb; assumption.
  - inversion Hp as [|? ? He Hp']; subst.
    destruct pre as [|e' pre]; simpl in E; injection E as E1 E2.
    + subst e. discriminate.
    + apply (IH Hp' pre c post E2).
Qed.

(** X15: the region of the local instance is looked up only when
    [-region] is empty and the TLS files are loaded only when TLS is
    enabled; both happen before the first request: once a request is sent,
    the rest of the run holds neither a lookup nor a loading, so the TLS
    configuration of an invocation is set once and serves every call. *)
Theorem X15_lookups_precede_requests :
  forall Wait Retry MongoDB PostgreSQL fuel w f,
    let t := events (main Wait Retry MongoDB PostgreSQL fuel w f) in
    (region f <> "" -> ~ In LocalRegion t) /\
    (tlsEnabled f = false -> forall ca cert key, ~ In (LoadTLS ca cert key) t) /\
    (forall pre c post, t = pre ++ Request c :: post -> Forall handlerEvent post).
Proof.
  intros Wait Retry MongoDB PostgreSQL fuel w f t.
  assert (exists prelude body,
            t = prelude ++ body /\
            Forall (fun e => isRequest e = false) prelude /\
            Forall handlerEvent body /\
            (region f <> "" -> ~ In LocalRegion prelude) /\
            (tlsEnabled f = false ->
             forall ca cert key, ~ In (LoadTLS ca cert key) prelude))
    as (prelude & body & E & Hp & Hb & Hr & Ht).
  { subst t. main_cases; unfold after; cbn [events fst]; flag_fields;
      match goal with
      | |- exists prelude body, ?a :: ?b :: events ?d = _ /\ _ =>
          exists [a; b], (events d)
      | |- exists prelude body, ?a :: events ?d = _ /\ _ =>
          exists [a], (events d)
      | |- exists prelude body, events ?d = _ /\ _ =>
          exists [], (events d)
      | |- exists prelude body, ?l = _ /\ _ =>
          exists l, []
      end;
      (split; [rewrite ?app_nil_r; reflexivity|]);
      (split; [repeat constructor|]);
      (split; [try apply dispatch_handlerEvents; constructor|]);
      (split; [intros R; try (apply String.eqb_neq in R; congruence);
               simpl; intuition discriminate
              |intros T; try congruence; intros ca cert key;
               simpl; intuition discriminate]). }
  split; [|split].
  - intros R I. rewrite E in I. apply in_app_or in I. destruct I as [I|I].
    + exact (Hr R I).
    + rewrite Forall_forall in Hb. exact (Hb _ I).
  - intros T ca cert key I. rewrite E in I. apply in_app_or in I.
    destruct I as [I|I].
    + exact (Ht T ca cert key I).
    + rewrite Forall_forall in Hb. exact (Hb _ I).
  - intros pre c post E'. rewrite E in E'.
    exact (suffix_after_request handlerEvent prelude body Hp Hb pre c post E').
Qed.

(** ** What a successful creation means *)

Lemma wait_returned Wait Retry cli initReq : forall fuel tick sec,
  completion (waitInitialized Wait Retry fuel cli initReq tick sec) = Return true ->
  exists k : nat,
    CatalogCheckServiceInit cli (tick + k) initReq = Ok true /\
    (forall i, (i < k)%nat -> CatalogCheckServiceInit cli (tick + i) initReq <> Ok true) /\
    ticks (events (waitInitialized Wait Retry fuel cli initReq tick sec)) = S k.
Proof.
  induction fuel as [|fuel IH]; intros tick sec.
  - simpl. destruct (sec <? Wait); discriminate.
  - destruct (Z.lt_ge_cases sec Wait) as [H|H];
      [|rewrite wait_stop by assumption; discriminate].
    destruct (CatalogCheckServiceInit cli tick initReq) as [[|]|err] eqn:C.
    + rewrite wait_done by assumption. intros _. exists 0%nat.
      rewrite Nat.add_0_r. repeat split; [assumption | lia].
    + destruct (wait_next Wait Retry cli initReq fuel tick sec H) as (-> & -> & _);
        [congruence|].
      intros R. destruct (IH _ _ R) as (k & K1 & K2 & K3). exists (S k).
      replace (tick + S k)%nat with (S tick + k)%nat by lia.
      repeat split; [assumption | | rewrite K3; reflexivity].
      intros [|i] Hi; [rewrite Nat.add_0_r; congruence|].
      replace (tick + S i)%nat with (S tick + i)%nat by lia. apply K2. lia.
    + destruct (wait_next Wait Retry cli initReq fuel tick sec H) as (-> & -> & _);
        [congruence|].
      intros R. destruct (IH _ _ R) as (k & K1 & K2 & K3). exists (S k).
      replace (tick + S k)%nat with (S tick + k)%nat by lia.
      repeat split; [assumption | | rewrite K3; reflexivity].
      intros [|i] Hi; [rewrite Nat.add_0_r; congruence|].
      replace (tick + S i)%nat with (S tick + i)%nat by lia. apply K2. lia.
Qed.

(** X16: a creation of a MongoDB service that returns, status 0, was
    initialized: the numbers were valid, the creation call succeeded, and
    the last of its checks, and none before it, answered "initialized". *)
Theorem X16_returned_creation_is_initialized :
  forall Wait Retry MongoDB fuel cli f,
    completion (createMongoDBService Wait Retry MongoDB fuel cli f) = Return tt ->
    replicas f <> 0 /\ volSizeGB f <> 0 /\
    CatalogCreateMongoDBService cli (mongoDBRequest f) = None /\
    exists k : nat,
      CatalogCheckServiceInit cli k (mongoDBInitRequest MongoDB f) = Ok true /\
      (forall i, (i < k)%nat ->
         CatalogCheckServiceInit cli i (mongoDBInitRequest MongoDB f) <> Ok true) /\
      ticks (events (createMongoDBService Wait Retry MongoDB fuel cli f)) = S k.
Proof.
  intros Wait Retry MongoDB fuel cli f R.
  destruct (Z.eq_dec (replicas f) 0) as [H1|H1];
    [rewrite createMongoDBService_invalid in R by tauto; discriminate|].
  destruct (Z.eq_dec (volSizeGB f) 0) as [H2|H2];
    [rewrite createMongoDBService_invalid in R by tauto; discriminate|].
  pose proof (createMongoDBService_valid Wait Retry MongoDB fuel cli f H1 H2) as V.
  destruct (CatalogCreateMongoDBService cli (mongoDBRequest f)) eqn:HC;
    [rewrite V in R; discriminate|].
  rewrite V in R |- *. cbn [events completion fst snd] in *.
  destruct (completion (waitInitialized Wait Retry fuel cli
                          (mongoDBInitRequest MongoDB f) 0 0)) as [[|]| |] eqn:CP;
    try discriminate.
  destruct (wait_returned Wait Retry cli (mongoDBInitRequest MongoDB f) fuel 0%nat 0 CP)
    as (k & K1 & K2 & K3).
  repeat split; try assumption. exists k. repeat split; try assumption.
  change (?a :: ?b :: ?l) with ([a; b] ++ l).
  rewrite !ticks_app, K3. unfold ticks. simpl. lia.
Qed.

Lemma X16_returned_creation_is_initialized_witness :
  let cli := stubClient None flakyCheck (Ok []) None in
  let f := flagsFor opCreate "mongodb" 3 20 in
  replicas f <> 0 /\ volSizeGB f <> 0 /\
  CatalogCreateMongoDBService cli (mongoDBRequest f) = None /\
  exists k : nat,
    CatalogCheckServiceInit cli k (mongoDBInitRequest "mongodb" f) = Ok true /\
    (forall i, (i < k)%nat ->
       CatalogCheckServiceInit cli i (mongoDBInitRequest "mongodb" f) <> Ok true) /\
    ticks (events (createMongoDBService 100 10 "mongodb" 10 cli f)) = S k.
Proof.
  intros cli f.
  exact (X16_returned_creation_is_initialized 100 10 "mongodb" 10 cli f eq_refl).
Defined.

(** An error of the list call of [getService]: the request, the print of
    the error, the exit. *)
Lemma X7_adapter_errors_are_fatal_witness :
  let cli :=
    mkManageClient (fun _ => None) (fun _ => None) (fun _ _ => Ok true)
      (fun _ => Ok []) (fun _ => Err "not found") (fun _ => Ok [])
      (fun _ => None) (fun _ => Ok "content") in
  let f := flagsFor opGet "" 3 0 in
  getService cli f =
    ([Request (CallGetServiceAttr (commonRequest f));
      Println [VStr "GetServiceAttr error"; VErr "not found"]], Exit (-1)).
Proof.
  intros cli f.
  exact (proj1 (proj2 (X7_adapter_errors_are_fatal 120 3 "mongodb" 40 cli f
                         "not found")) eq_refl).
Defined.

(** ** The wait after a creation, in full *)

(** No tick that the budget reaches answers "initialized": the loop runs
    to its end. *)
Lemma wait_times_out Wait Retry cli initReq :
  0 < Retry -> Wait + Retry <= 2 ^ 63 ->
  forall fuel tick sec,
    0 <= sec -> (Z.to_nat (Wait - sec) <= fuel)%nat ->
    (forall i : nat, sec + Z.of_nat i * Retry < Wait ->
       CatalogCheckServiceInit cli (tick + i) initReq <> Ok true) ->
    completion (waitInitialized Wait Retry fuel cli initReq tick sec) = Return false.
Proof.
  intros HR HO. induction fuel as [|fuel IH]; intros tick sec Hs Hf Hn.
  - apply (f_equal snd (wait_stop Wait Retry cli initReq 0 tick sec ltac:(lia))).
  - destruct (Z.lt_ge_cases sec Wait) as [H|H];
      [|apply (f_equal snd (wait_stop Wait Retry cli initReq (S fuel) tick sec H))].
    destruct (wait_next Wait Retry cli initReq fuel tick sec H) as (-> & _).
    + specialize (Hn 0%nat). rewrite Nat.add_0_r in Hn. apply Hn. lia.
    + rewrite wrap64_small by lia. apply IH; [lia | lia |].
      intros i Hi. replace (S tick + i)%nat with (tick + S i)%nat by lia.
      apply Hn. lia.
Qed.

(** The first tick that answers "initialized", when one does. *)
Lemma first_initialized (check : nat -> result bool) : forall i : nat,
  check i = Ok true ->
  exists k : nat,
    (k <= i)%nat /\ check k = Ok true /\
    forall j, (j < k)%nat -> check j <> Ok true.
Proof.
  induction i as [i IH] using lt_wf_ind. intros Hi.
  assert ((forall j, (j < i)%nat -> check j <> Ok true) \/
          exists j, (j < i)%nat /\ check j = Ok true) as [None | (j & Hj & Cj)].
  { clear IH Hi. induction i as [|i IHi].
    - left. intros j Hj. lia.
    - destruct IHi as [None | (j & Hj & Cj)].
      + destruct (check i) as [[|]|err] eqn:C.
        * right. exists i. split; [lia | assumption].
        * left. intros j Hj. destruct (Nat.eq_dec j i) as [-> | Ne];
            [congruence | apply None; lia].
        * left. intros j Hj. destruct (Nat.eq_dec j i) as [-> | Ne];
            [congruence | apply None; lia].
      + right. exists j. split; [lia | assumption]. }
  - exists i. repeat split; [lia | assumption | assumption].
  - destruct (IH j Hj Cj) as (k & Hk & Ck & Nk).
    exists k. repeat split; [lia | assumption | assumption].
Qed.

(** The creation past its successful call, from its wait loop. *)
Lemma createMongoDBService_polls Wait Retry MongoDB fuel cli f :
  replicas f <> 0 -> volSizeGB f <> 0 ->
  CatalogCreateMongoDBService cli (mongoDBRequest f) = None ->
  let p := createMongoDBService Wait Retry MongoDB fuel cli f in
  let poll := waitInitialized Wait Retry fuel cli (mongoDBInitRequest MongoDB f) 0 0 in
  ticks (events p) = ticks (events poll) /\
  sleptSeconds (events p) = sleptSeconds (events poll) /\
  completion p = match completion poll with
                 | Return true => Return tt
                 | Return false => Exit (-1)
                 | Exit code => Exit code
                 | OutOfFuel => OutOfFuel
                 end /\
  (completion poll = Return false ->
   exists pre, events p = pre ++ [timeoutMessage Wait]).
Proof.
  intros H1 H2 HC p poll. subst p.
  rewrite createMongoDBService_valid, HC by assumption. fold poll.
  cbn [events completion fst snd].
  change (?a :: ?b :: ?l) with ([a; b] ++ l).
  rewrite !ticks_app, !sleptSeconds_app.
  repeat split.
  - destruct (completion poll) as [[|]| |]; unfold ticks; simpl; lia.
  - destruct (completion poll) as [[|]| |]; simpl; lia.
  - intros ->. eexists. rewrite app_assoc. reflexivity.
Qed.


(** C4, as the code has it.  After a successful creation call
    [createMongoDBService] prints that the service is created and enters the
    wait loop, whose events are checks for the same service identity and
    admin credentials, sleeps and prints, a check first.  The loop repeats
    the check until an answer is "initialized" or the budget is used up:
    the run returns exactly when some tick inside the budget answers
    "initialized", after as many checks as it takes to reach the first such
    tick; it exits with -1 exactly when no tick inside the budget does,
    after the n checks that fit the budget, (n - 1) * step < budget <=
    n * step, its last print being the one of the timeout.  After a
    successful creation call [createPostgreSQLService] prints that the
    service is created and returns: it calls no check. *)
Theorem C4_wait_follows_mongodb_creation :
  forall Wait Retry MongoDB fuel cli f,
    replicas f <> 0 -> volSizeGB f <> 0 ->
    (CatalogCreateMongoDBService cli (mongoDBRequest f) = None ->
     let p := createMongoDBService Wait Retry MongoDB fuel cli f in
     let check i := CatalogCheckServiceInit cli i (mongoDBInitRequest MongoDB f) in
     (exists trace,
        events p = Request (CallCreateMongoDB (mongoDBRequest f))
                   :: createdMessage :: trace /\
        Forall (pollEvent (mongoDBInitRequest MongoDB f)) trace /\
        CatalogCheckServiceInitRequest.Service (mongoDBInitRequest MongoDB f) =
          CatalogCreateMongoDBRequest.Service (mongoDBRequest f) /\
        (0 < Wait -> (0 < fuel)%nat ->
         hd_error trace =
           Some (Request (CallCheckServiceInit (mongoDBInitRequest MongoDB f))))) /\
     (0 < Retry -> Wait + Retry <= 2 ^ 63 -> (Z.to_nat Wait <= fuel)%nat ->
      (completion p = Return tt \/ completion p = Exit (-1)) /\
      (forall k : nat,
          Z.of_nat k * Retry < Wait ->
          (forall i, (i < k)%nat -> check i <> Ok true) -> check k = Ok true ->
          completion p = Return tt /\ ticks (events p) = S k /\
          exists pre, events p = pre ++ [initializedMessage]) /\
      (completion p = Return tt ->
       exists k : nat,
         Z.of_nat k * Retry < Wait /\ check k = Ok true /\
         (forall i, (i < k)%nat -> check i <> Ok true) /\
         ticks (events p) = S k) /\
      ((forall i : nat, Z.of_nat i * Retry < Wait -> check i <> Ok true) ->
       completion p = Exit (-1) /\
       Wait <= Z.of_nat (ticks (events p)) * Retry /\
       ((0 < ticks (events p))%nat ->
        (Z.of_nat (ticks (events p)) - 1) * Retry < Wait) /\
       exists pre, events p = pre ++ [timeoutMessage Wait]) /\
      (completion p = Exit (-1) ->
       forall i : nat, Z.of_nat i * Retry < Wait -> check i <> Ok true))) /\
    (CatalogCreatePostgreSQLService cli (postgreSQLRequest f) = None ->
     createPostgreSQLService cli f =
       ([Request (CallCreatePostgreSQL (postgreSQLRequest f));
         Println [VStr "The postgresql service is created"]], Return tt) /\
     ticks (events (createPostgreSQLService cli f)) = 0%nat).
Proof.
  intros Wait Retry MongoDB fuel cli f H1 H2.
  destruct (creation_then_wait Wait Retry MongoDB fuel cli f H1 H2) as (M & P).
  split; [|exact P].
  intros HC p check. specialize (M HC). cbv zeta in M.
  destruct M as (trace & E & F & Sv & Hd & _).
  split; [exists trace; repeat split; assumption|].
  intros HR HO Hf.
  destruct (createMongoDBService_polls Wait Retry MongoDB fuel cli f H1 H2 HC)
    as (T & _ & C & Last).
  fold p in T, C, Last.
  set (poll := waitInitialized Wait Retry fuel cli (mongoDBInitRequest MongoDB f) 0 0)
    in *.
  destruct (wait_budget Wait Retry cli (mongoDBInitRequest MongoDB f) HR HO
              fuel 0%nat 0) as (B1 & B2); [lia|]. fold poll in B1, B2.
  assert (forall k : nat,
             Z.of_nat k * Retry < Wait ->
             (forall i, (i < k)%nat -> check i <> Ok true) -> check k = Ok true ->
             completion p = Return tt /\ ticks (events p) = S k /\
             exists pre, events p = pre ++ [initializedMessage]) as Initialized.
  { intros k Hb Hn Hk.
    destruct (wait_success Wait Retry cli (mongoDBInitRequest MongoDB f) HR HO
                k fuel 0%nat 0) as (CP & TP); try assumption; try nia.
    fold poll in CP, TP. rewrite C, CP, T, TP. repeat split.
    destruct (wait_last _ _ _ _ _ _ _ CP) as (pre & EP). fold poll in EP.
    subst p. rewrite createMongoDBService_valid, HC by assumption.
    fold poll. cbn [events fst]. rewrite CP, EP, app_nil_r.
    eexists (_ :: _ :: pre). reflexivity. }
  assert (completion p = Return tt ->
          exists k : nat,
            Z.of_nat k * Retry < Wait /\ check k = Ok true /\
            (forall i, (i < k)%nat -> check i <> Ok true) /\
            ticks (events p) = S k) as Returned.
  { intros R. rewrite C in R.
    destruct (completion poll) as [[|]| |] eqn:CP; try discriminate.
    destruct (wait_returned Wait Retry cli (mongoDBInitRequest MongoDB f)
                fuel 0%nat 0 CP) as (k & K1 & K2 & K3).
    fold poll in K3. exists k. rewrite T, K3 in *.
    repeat split; try assumption.
    assert (0 < S k)%nat as Hp by lia. specialize (B1 Hp). lia. }
  assert ((forall i : nat, Z.of_nat i * Retry < Wait -> check i <> Ok true) ->
          completion p = Exit (-1) /\
          Wait <= Z.of_nat (ticks (events p)) * Retry /\
          ((0 < ticks (events p))%nat ->
           (Z.of_nat (ticks (events p)) - 1) * Retry < Wait) /\
          exists pre, events p = pre ++ [timeoutMessage Wait]) as TimedOut.
  { intros Hn.
    assert (completion poll = Return false) as CP.
    { apply wait_times_out; try assumption; lia. }
    rewrite C, CP, T. specialize (B2 CP).
    split; [reflexivity|]. split; [lia|].
    split; [intros Hp; specialize (B1 Hp); lia | exact (Last CP)]. }
  split; [|split; [exact Initialized | split; [exact Returned | split;
                                                 [exact TimedOut|]]]].
  - destruct (wait_total Wait Retry cli (mongoDBInitRequest MongoDB f) HR HO
                fuel 0%nat 0) as [CP|CP]; try lia; fold poll in CP;
      rewrite C, CP; [left | right]; reflexivity.
  - intros X i Hi Ci.
    destruct (first_initialized check i Ci) as (k & Hk & Ck & Nk).
    destruct (Initialized k) as (R & _); try assumption; [nia | congruence].
Qed.

(** The check answers "initialized" at its third tick: the MongoDB
    creation returns after three checks, the PostgreSQL creation calls
    none. *)
Lemma C4_wait_follows_mongodb_creation_witness :
  let cli := stubClient None (readyAfter 2) (Ok []) None in
  let f := flagsFor opCreate "mongodb" 3 20 in
  let p := createMongoDBService 120 3 "mongodb" 120 cli f in
  (completion p = Return tt /\ ticks (events p) = 3%nat /\
   exists pre, events p = pre ++ [initializedMessage]) /\
  createPostgreSQLService cli f =
    ([Request (CallCreatePostgreSQL (postgreSQLRequest f));
      Println [VStr "The postgresql service is created"]], Return tt) /\
  ticks (events (createPostgreSQLService cli f)) = 0%nat.
Proof.
  intros cli f p.
  destruct (C4_wait_follows_mongodb_creation 120 3 "mongodb" 120 cli f)
    as (M & P); [vm_compute; discriminate | vm_compute; discriminate |].
  split; [|exact (P eq_refl)].
  destruct (M eq_refl) as (_ & L).
  destruct L as (_ & I & _); [lia | lia | vm_compute; lia |].
  apply (I 2%nat); [lia | | reflexivity].
  intros i Hi. destruct i as [|[|i]]; [discriminate | discriminate | lia].
Defined.



